(** * Resource handlers over the cluster API: a shallow embedding

    The repository wraps a cluster-management SDK: every handler operation
    inspects the dynamic type of its argument, normalises it to a typed
    object and delegates to one verb of the cluster API.  The embedding keeps
    the SDK abstract (class [SDK]) and records every delegated request in a
    log, so that statements such as "no call is made" or "the request uses
    patch type t" are statements about that log. *)

From Stdlib Require Import String List Bool Arith Lia ZArith.
From Stdlib.Strings Require Import Byte.
Import ListNotations.
Local Open Scope string_scope.

Set Implicit Arguments.

(** ** Data model *)

(** [[]byte] *)
Definition bytes := list byte.

Definition bytes_of (s : string) : bytes := list_byte_of_string s.

Fixpoint bytes_eqb (a b : bytes) : bool :=
  match a, b with
  | [], [] => true
  | x :: a', y :: b' => Byte.eqb x y && bytes_eqb a' b'
  | _, _ => false
  end.

(** [len(s) != 0] on a Go string *)
Definition nonempty (s : string) : bool :=
  match s with EmptyString => false | _ => true end.

(** The typed API structs the handlers of the repository are written for. *)
Inductive Kind :=
| KDeployment | KDaemonSet | KPersistentVolumeClaim | KPersistentVolume
| KClusterRole | KRoleBinding | KNode | KConfigMap | KNamespace
| KindOther (name : string).

(** [metav1.ObjectMeta], the fields the handlers read or write. *)
Record ObjectMeta := mkMeta {
  Name : string;
  Namespace : string;
  ResourceVersion : string;
  UID : string
}.

(** A typed API struct: its metadata and the rest of its content. *)
Record TypedObject := mkObj {
  Meta : ObjectMeta;
  Content : bytes
}.

(** [interface{}] values as they occur in [map[string]interface{}]. *)
#[warnings="-register-all"]
Inductive JSON :=
| JNull
| JBool (b : bool)
| JNum (n : Z)
| JStr (s : string)
| JArr (l : list JSON)
| JObj (fields : list (string * JSON)).

(** [map[string]interface{}] *)
Definition UMap := list (string * JSON).

(** [types.PatchType] is a string type; the three constants used here and
    any other string. *)
Inductive PatchType :=
| JSONPatchType
| MergePatchType
| StrategicMergePatchType
| PatchTypeOther (s : string).

Definition PatchType_eqb (a b : PatchType) : bool :=
  match a, b with
  | JSONPatchType, JSONPatchType => true
  | MergePatchType, MergePatchType => true
  | StrategicMergePatchType, StrategicMergePatchType => true
  | PatchTypeOther s, PatchTypeOther t => String.eqb s t
  | _, _ => false
  end.

(** [metav1.StatusReason] of an API status error, as far as the handlers
    distinguish it. *)
Inductive StatusReason := AlreadyExists | NotFound | Conflict | ReasonOther (s : string).

Inductive error :=
| ERR_TYPE_CREATE | ERR_TYPE_UPDATE | ERR_TYPE_APPLY | ERR_TYPE_DELETE
| ERR_TYPE_GET
| ErrInvalidPathType | ErrInvalidDeleteType
| Errorf (msg : string)               (* fmt.Errorf / errors.New *)
| StatusError (reason : StatusReason) (* k8serrors.StatusError *)
| ErrExternal (msg : string).         (* any error of the SDK or the OS *)


(** A Go result pair [(v, err)]: [inl err] when [err != nil]. *)
Definition Result (A : Type) : Type := (error + A)%type.

(** The dynamic type and value behind an [interface{}] argument.  The typed
    structs and [unstructured.Unstructured] have their methods on the pointer
    receiver, so only the pointers implement [runtime.Object]. *)
Inductive value :=
| VString (s : string)
| VBytes (b : bytes)
| VPtr (k : Kind) (o : TypedObject)
| VStruct (k : Kind) (o : TypedObject)
| VUnstructuredPtr (u : UMap)
| VUnstructured (u : UMap)
| VMap (m : UMap)
| VObject (tag : string)   (* another implementation of runtime.Object *)
| VOther (tag : string).   (* a value of any other type, nil included *)

Definition implementsObject (v : value) : bool :=
  match v with
  | VPtr _ _ | VUnstructuredPtr _ | VObject _ => true
  | _ => false
  end.

Definition Kind_eqb (a b : Kind) : bool :=
  match a, b with
  | KDeployment, KDeployment | KDaemonSet, KDaemonSet
  | KPersistentVolumeClaim, KPersistentVolumeClaim
  | KPersistentVolume, KPersistentVolume | KClusterRole, KClusterRole
  | KRoleBinding, KRoleBinding | KNode, KNode | KConfigMap, KConfigMap
  | KNamespace, KNamespace => true
  | KindOther s, KindOther t => String.eqb s t
  | _, _ => false
  end.

(** The type assertion [obj.( *T )] on a [runtime.Object]. *)
Definition assertPtr (k : Kind) (v : value) : option TypedObject :=
  match v with
  | VPtr k' o => if Kind_eqb k k' then Some o else None
  | _ => None
  end.

(** ** Handler and cluster API *)

(** [typed.HandlerOptions]: the per-verb option structs, kept opaque. *)
Record HandlerOptions := mkOptions {
  CreateOptions : bytes;
  UpdateOptions : bytes;
  DeleteOptions : bytes;
  GetOptions : bytes;
  PatchOptions : bytes
}.

Record Handler := mkHandler {
  kubeconfig : string;
  namespace : string;
  Options : HandlerOptions
}.

(** [schema.GroupVersionKind] and [schema.GroupVersionResource] *)
Module schema.
Record GroupVersionKind := mkGVK {
  Group : string;
  Version : string;
  Kind : string
}.
Record GroupVersionResource := mkGVR {
  RGroup : string;
  RVersion : string;
  Resource : string
}.
End schema.

(** One request to the cluster API.  [ns = None] is a request on a
    cluster-scoped resource interface. *)
Inductive APICall :=
| CallCreate (k : Kind) (ns : option string) (o : TypedObject) (opts : bytes)
| CallUpdate (k : Kind) (ns : option string) (o : TypedObject) (opts : bytes)
| CallDelete (k : Kind) (ns : option string) (name : string) (opts : bytes)
| CallGet (k : Kind) (ns : option string) (name : string) (opts : bytes)
| CallPatch (k : Kind) (ns : option string) (name : string) (pt : PatchType)
            (data : bytes) (opts : bytes)
| CallDynamicDelete (gvr : schema.GroupVersionResource) (ns : option string)
                    (name : string) (opts : bytes).

(** The collaborators the repository delegates to.  None of them is code of
    the repository: the file system, the YAML and JSON codecs, the
    unstructured converter, the strategic-patch differ and the API server
    itself. *)
Class SDK := {
  Cluster : Type;
  ReadFile : string -> Result bytes;
  yaml_ToJSON : bytes -> Result bytes;
  json_Unmarshal : Kind -> bytes -> Result TypedObject;
  json_Marshal : Kind -> TypedObject -> Result bytes;
  FromUnstructured : Kind -> UMap -> Result TypedObject;
  CreateTwoWayMergePatch : bytes -> bytes -> Kind -> Result bytes;
  serve : APICall -> Cluster -> Result TypedObject * Cluster
}.

(** ** The monad of handler methods

    A method runs against the handler it is called on (a pointer receiver:
    its fields can be written), the log of requests sent so far and the
    state of the API server.  [H] is the package's [Handler] struct. *)
Section Monad.
Context {sdk : SDK}.
Variable H : Type.

Record World := mkWorld {
  handler : H;
  calls : list APICall;
  cluster : Cluster
}.

Definition M (A : Type) : Type := World -> Result A * World.

Definition ret {A} (a : A) : M A := fun w => (inr a, w).
Definition fail {A} (e : error) : M A := fun w => (inl e, w).

Definition bind {A B} (m : M A) (f : A -> M B) : M B :=
  fun w => match m w with
           | (inl e, w') => (inl e, w')
           | (inr a, w') => f a w'
           end.

(** [x, err := f(...); if err != nil { return nil, err }] for a pure
    collaborator. *)
Definition lift {A} (r : Result A) : M A := fun w => (r, w).

(** Reading and writing the fields of the receiver. *)
Definition getHandler : M H := fun w => (inr (handler w), w).

Definition modifyHandler (f : H -> H) : M unit :=
  fun w => (inr tt, mkWorld (f (handler w)) (calls w) (cluster w)).

(** Sending a request: it is logged and answered by the server. *)
Definition request (c : APICall) : M TypedObject :=
  fun w => let (r, cl) := serve c (cluster w) in
           (r, mkWorld (handler w) (calls w ++ [c]) cl).
End Monad.

Arguments ret {sdk H A} a.
Arguments fail {sdk H A} e.
Arguments lift {sdk H A} r.
Arguments getHandler {sdk H}.
Arguments request {sdk H} c.

Notation "x <- m ;; k" := (bind m (fun x => k))
  (at level 61, m at next level, right associativity).

(** The first element of the variadic [patchOptions], when there is one:
    [len(patchOptions) != 0 && patchOptions[0] == t]. *)
Definition firstOptionIs (t : PatchType) (patchOptions : list PatchType) : bool :=
  match patchOptions with
  | [] => false
  | p :: _ => PatchType_eqb p t
  end.

(** [len(patchData) == 0 || string(patchData) == "{}"] *)
Definition emptyPatch (patchData : bytes) : bool :=
  (Nat.eqb (length patchData) 0) || bytes_eqb patchData (bytes_of "{}").

(** ** persistentvolume/patch.go *)
Module PersistentVolume.
Section Handler.
Context {sdk : SDK}.

Definition strategicMergePatch (original : TypedObject) (patchData : bytes)
  : M Handler TypedObject :=
  if emptyPatch patchData then ret original
  else
    h <- getHandler ;;
    request (CallPatch KPersistentVolume None (Name (Meta original))
               StrategicMergePatchType patchData (PatchOptions (Options h))).

Definition jsonMergePatch (original : TypedObject) (patchData : bytes)
  : M Handler TypedObject :=
  if emptyPatch patchData then ret original
  else
    h <- getHandler ;;
    request (CallPatch KPersistentVolume None (Name (Meta original))
               StrategicMergePatchType patchData (PatchOptions (Options h))).

Definition jsonPatch (original : TypedObject) (patchData : bytes)
  : M Handler TypedObject :=
  h <- getHandler ;;
  request (CallPatch KPersistentVolume None (Name (Meta original))
             JSONPatchType patchData (PatchOptions (Options h))).

Definition diffMergePatch (original modified : TypedObject)
  (patchOptions : list PatchType) : M Handler TypedObject :=
  originalJson <- lift (json_Marshal KPersistentVolume original) ;;
  modifiedJson <- lift (json_Marshal KPersistentVolume modified) ;;
  patchData <- lift (CreateTwoWayMergePatch originalJson modifiedJson
                       KPersistentVolume) ;;
  if emptyPatch patchData then ret original
  else
    h <- getHandler ;;
    if firstOptionIs MergePatchType patchOptions then
      request (CallPatch KPersistentVolume None (Name (Meta original))
                 MergePatchType patchData (PatchOptions (Options h)))
    else
      request (CallPatch KPersistentVolume None (Name (Meta original))
                 StrategicMergePatchType patchData (PatchOptions (Options h))).

Definition Patch (original : TypedObject) (patch : value)
  (patchOptions : list PatchType) : M Handler TypedObject :=
  match patch with
  | VString val =>
      patchData <- lift (ReadFile val) ;;
      jsonData <- lift (yaml_ToJSON patchData) ;;
      if firstOptionIs JSONPatchType patchOptions then
        jsonPatch original jsonData
      else if firstOptionIs MergePatchType patchOptions then
        jsonMergePatch original jsonData
      else strategicMergePatch original jsonData
  | VBytes val =>
      jsonData <- lift (yaml_ToJSON val) ;;
      if firstOptionIs JSONPatchType patchOptions then
        jsonPatch original jsonData
      else if firstOptionIs MergePatchType patchOptions then
        jsonMergePatch original jsonData
      else strategicMergePatch original jsonData
  | VPtr KPersistentVolume val => diffMergePatch original val patchOptions
  | VStruct KPersistentVolume val => diffMergePatch original val patchOptions
  | VMap val =>
      modified <- lift (FromUnstructured KPersistentVolume val) ;;
      diffMergePatch original modified patchOptions
  | VUnstructuredPtr val =>
      modified <- lift (FromUnstructured KPersistentVolume val) ;;
      diffMergePatch original modified patchOptions
  | VUnstructured val =>
      modified <- lift (FromUnstructured KPersistentVolume val) ;;
      diffMergePatch original modified patchOptions
  | VPtr _ _ | VObject _ =>
      (* case runtime.Object: the assertion to *PersistentVolume fails *)
      fail (Errorf "patch data type is not *corev1.PersistentVolume")
  | VStruct _ _ | VOther _ => fail ErrInvalidPathType
  end.

End Handler.
End PersistentVolume.

(** ** clusterrole/patch.go *)
Module ClusterRole.
Section Handler.
Context {sdk : SDK}.

Definition strategicMergePatch (original : TypedObject) (patchData : bytes)
  : M Handler TypedObject :=
  if emptyPatch patchData then ret original
  else
    h <- getHandler ;;
    request (CallPatch KClusterRole None (Name (Meta original))
               StrategicMergePatchType patchData (PatchOptions (Options h))).

Definition jsonMergePatch (original : TypedObject) (patchData : bytes)
  : M Handler TypedObject :=
  if emptyPatch patchData then ret original
  else
    h <- getHandler ;;
    request (CallPatch KClusterRole None (Name (Meta original))
               MergePatchType patchData (PatchOptions (Options h))).

Definition jsonPatch (original : TypedObject) (patchData : bytes)
  : M Handler TypedObject :=
  h <- getHandler ;;
  request (CallPatch KClusterRole None (Name (Meta original))
             JSONPatchType patchData (PatchOptions (Options h))).

Definition diffMergePatch (original modified : TypedObject)
  (patchOptions : list PatchType) : M Handler TypedObject :=
  originalJson <- lift (json_Marshal KClusterRole original) ;;
  modifiedJson <- lift (json_Marshal KClusterRole modified) ;;
  patchData <- lift (CreateTwoWayMergePatch originalJson modifiedJson
                       KClusterRole) ;;
  if emptyPatch patchData then ret original
  else
    h <- getHandler ;;
    if firstOptionIs MergePatchType patchOptions then
      request (CallPatch KClusterRole None (Name (Meta original))
                 MergePatchType patchData (PatchOptions (Options h)))
    else
      request (CallPatch KClusterRole None (Name (Meta original))
                 StrategicMergePatchType patchData (PatchOptions (Options h))).

Definition Patch (original : TypedObject) (patch : value)
  (patchOptions : list PatchType) : M Handler TypedObject :=
  match patch with
  | VString val =>
      patchData <- lift (ReadFile val) ;;
      jsonData <- lift (yaml_ToJSON patchData) ;;
      if firstOptionIs JSONPatchType patchOptions then
        jsonPatch original jsonData
      else if firstOptionIs MergePatchType patchOptions then
        jsonMergePatch original jsonData
      else strategicMergePatch original jsonData
  | VBytes val =>
      jsonData <- lift (yaml_ToJSON val) ;;
      if firstOptionIs JSONPatchType patchOptions then
        jsonPatch original jsonData
      else if firstOptionIs MergePatchType patchOptions then
        jsonMergePatch original jsonData
      else strategicMergePatch original jsonData
  | VPtr KClusterRole val => diffMergePatch original val patchOptions
  | VStruct KClusterRole val => diffMergePatch original val patchOptions
  | VMap val =>
      modified <- lift (FromUnstructured KClusterRole val) ;;
      diffMergePatch original modified patchOptions
  | VUnstructuredPtr val =>
      modified <- lift (FromUnstructured KClusterRole val) ;;
      diffMergePatch original modified patchOptions
  | VUnstructured val =>
      modified <- lift (FromUnstructured KClusterRole val) ;;
      diffMergePatch original modified patchOptions
  | VPtr _ _ | VObject _ =>
      (* case runtime.Object: the assertion to *ClusterRole fails *)
      fail (Errorf "patch data type is not *rbacv1.ClusterRole")
  | VStruct _ _ | VOther _ => fail ErrInvalidPathType
  end.


(** *** clusterrole apply (unnamed/part_006) *)

(** Modelled from the spec: [createCR] and [updateCR] are defined in files of
    package clusterrole that are not among the sources.  By the spec every
    operation is "normalize input, call the underlying SDK's verb, return
    its result", so [createCR] sends one Create request for the object on
    the cluster-scoped ClusterRoles interface and [updateCR] one Update
    request. *)
Definition createCR (cr : TypedObject) : M Handler TypedObject :=
  h <- getHandler ;;
  request (CallCreate KClusterRole None cr (CreateOptions (Options h))).

Definition updateCR (cr : TypedObject) : M Handler TypedObject :=
  h <- getHandler ;;
  request (CallUpdate KClusterRole None cr (UpdateOptions (Options h))).

(** Modelled from the spec: [CreateFromBytes] and [UpdateFromBytes] of
    package clusterrole are not among the sources either; they follow the
    conversion the sibling packages apply to raw bytes (YAML to JSON, JSON
    to the typed struct) and delegate to [createCR] and [updateCR]. *)
Definition CreateFromBytes (data : bytes) : M Handler TypedObject :=
  crJson <- lift (yaml_ToJSON data) ;;
  cr <- lift (json_Unmarshal KClusterRole crJson) ;;
  createCR cr.

Definition UpdateFromBytes (data : bytes) : M Handler TypedObject :=
  crJson <- lift (yaml_ToJSON data) ;;
  cr <- lift (json_Unmarshal KClusterRole crJson) ;;
  updateCR cr.

(** Modelled from the spec: [CreateFromFile] and [UpdateFromFile], likewise
    absent, read the file and continue as for raw bytes. *)
Definition CreateFromFile (filename : string) : M Handler TypedObject :=
  data <- lift (ReadFile filename) ;;
  CreateFromBytes data.

Definition UpdateFromFile (filename : string) : M Handler TypedObject :=
  data <- lift (ReadFile filename) ;;
  UpdateFromBytes data.









End Handler.
End ClusterRole.

(** ** Typed handlers: update, create, delete, get *)

(** [obj.ResourceVersion = v] and [obj.UID = v] *)
Definition setResourceVersion (v : string) (o : TypedObject) : TypedObject :=
  mkObj (mkMeta (Name (Meta o)) (Namespace (Meta o)) v (UID (Meta o)))
        (Content o).

Definition setUID (v : string) (o : TypedObject) : TypedObject :=
  mkObj (mkMeta (Name (Meta o)) (Namespace (Meta o))
           (ResourceVersion (Meta o)) v)
        (Content o).

(** [if len(obj.Namespace) != 0 { namespace = obj.Namespace } else
    { namespace = h.namespace }] *)
Definition resolveNamespace (objNamespace handlerNamespace : string) : string :=
  if nonempty objNamespace then objNamespace else handlerNamespace.

(** A request whose answer is only an error ([Delete]). *)
Definition requestErr {sdk : SDK} {H : Type} (c : APICall) : M H unit :=
  _ <- request c ;; ret tt.

(** *** deployment/update.go *)
Module Deployment.
Section Handler.
Context {sdk : SDK}.

Definition updateDeployment (deploy : TypedObject) : M Handler TypedObject :=
  h <- getHandler ;;
  let ns := resolveNamespace (Namespace (Meta deploy)) (namespace h) in
  let deploy := setResourceVersion "" deploy in
  let deploy := setUID "" deploy in
  request (CallUpdate KDeployment (Some ns) deploy (UpdateOptions (Options h))).

Definition UpdateFromBytes (data : bytes) : M Handler TypedObject :=
  deployJson <- lift (yaml_ToJSON data) ;;
  deploy <- lift (json_Unmarshal KDeployment deployJson) ;;
  updateDeployment deploy.

Definition UpdateFromFile (filename : string) : M Handler TypedObject :=
  data <- lift (ReadFile filename) ;;
  UpdateFromBytes data.

Definition UpdateFromObject (obj : value) : M Handler TypedObject :=
  match assertPtr KDeployment obj with
  | Some deploy => updateDeployment deploy
  | None => fail (Errorf "object is not *appsv1.Deployment")
  end.

Definition UpdateFromUnstructured (u : UMap) : M Handler TypedObject :=
  deploy <- lift (FromUnstructured KDeployment u) ;;
  updateDeployment deploy.

Definition Update (obj : value) : M Handler TypedObject :=
  match obj with
  | VString val => UpdateFromFile val
  | VBytes val => UpdateFromBytes val
  | VPtr KDeployment val => UpdateFromObject (VPtr KDeployment val)
  | VStruct KDeployment val => UpdateFromObject (VPtr KDeployment val)
  | VPtr _ _ | VUnstructuredPtr _ | VObject _ => UpdateFromObject obj
  | VMap val => UpdateFromUnstructured val
  | VStruct _ _ | VUnstructured _ | VOther _ => fail ERR_TYPE_UPDATE
  end.

End Handler.
End Deployment.

(** *** daemonset/update.go *)
Module DaemonSet.
Section Handler.
Context {sdk : SDK}.

Definition updateDaemonset (ds : TypedObject) : M Handler TypedObject :=
  h <- getHandler ;;
  let ns := resolveNamespace (Namespace (Meta ds)) (namespace h) in
  let ds := setResourceVersion "" ds in
  let ds := setUID "" ds in
  request (CallUpdate KDaemonSet (Some ns) ds (UpdateOptions (Options h))).

Definition UpdateFromBytes (data : bytes) : M Handler TypedObject :=
  dsJson <- lift (yaml_ToJSON data) ;;
  ds <- lift (json_Unmarshal KDaemonSet dsJson) ;;
  updateDaemonset ds.

Definition UpdateFromFile (filename : string) : M Handler TypedObject :=
  data <- lift (ReadFile filename) ;;
  UpdateFromBytes data.

Definition UpdateFromObject (obj : value) : M Handler TypedObject :=
  match assertPtr KDaemonSet obj with
  | Some ds => updateDaemonset ds
  | None => fail (Errorf "object is not *appsv1.DaemonSet")
  end.

Definition UpdateFromUnstructured (u : UMap) : M Handler TypedObject :=
  ds <- lift (FromUnstructured KDaemonSet u) ;;
  updateDaemonset ds.

Definition Update (obj : value) : M Handler TypedObject :=
  match obj with
  | VString val => UpdateFromFile val
  | VBytes val => UpdateFromBytes val
  | VPtr KDaemonSet val => UpdateFromObject (VPtr KDaemonSet val)
  | VStruct KDaemonSet val => UpdateFromObject (VPtr KDaemonSet val)
  | VPtr _ _ | VUnstructuredPtr _ | VObject _ => UpdateFromObject obj
  | VMap val => UpdateFromUnstructured val
  | VStruct _ _ | VUnstructured _ | VOther _ => fail ERR_TYPE_UPDATE
  end.

End Handler.
End DaemonSet.

(** *** persistentvolumeclaim/create.go *)
Module PersistentVolumeClaim.
Section Handler.
Context {sdk : SDK}.

Definition createPVC (pvc : TypedObject) : M Handler TypedObject :=
  h <- getHandler ;;
  let ns := resolveNamespace (Namespace (Meta pvc)) (namespace h) in
  let pvc := setResourceVersion "" pvc in
  let pvc := setUID "" pvc in
  request (CallCreate KPersistentVolumeClaim (Some ns) pvc
             (CreateOptions (Options h))).

Definition CreateFromBytes (data : bytes) : M Handler TypedObject :=
  pvcJson <- lift (yaml_ToJSON data) ;;
  pvc <- lift (json_Unmarshal KPersistentVolumeClaim pvcJson) ;;
  createPVC pvc.

Definition CreateFromFile (filename : string) : M Handler TypedObject :=
  data <- lift (ReadFile filename) ;;
  CreateFromBytes data.

Definition CreateFromObject (obj : value) : M Handler TypedObject :=
  match assertPtr KPersistentVolumeClaim obj with
  | Some pvc => createPVC pvc
  | None => fail (Errorf "object is not *corev1.PersistentVolumeClaim")
  end.

Definition CreateFromUnstructured (u : UMap) : M Handler TypedObject :=
  pvc <- lift (FromUnstructured KPersistentVolumeClaim u) ;;
  createPVC pvc.

Definition Create (obj : value) : M Handler TypedObject :=
  match obj with
  | VString val => CreateFromFile val
  | VBytes val => CreateFromBytes val
  | VPtr KPersistentVolumeClaim val =>
      CreateFromObject (VPtr KPersistentVolumeClaim val)
  | VStruct KPersistentVolumeClaim val =>
      CreateFromObject (VPtr KPersistentVolumeClaim val)
  | VPtr _ _ | VUnstructuredPtr _ | VObject _ => CreateFromObject obj
  | VMap val => CreateFromUnstructured val
  | VStruct _ _ | VUnstructured _ | VOther _ => fail ERR_TYPE_CREATE
  end.

End Handler.
End PersistentVolumeClaim.

(** *** node/delete.go *)
Module Node.
Section Handler.
Context {sdk : SDK}.

Definition DeleteByName (name : string) : M Handler unit :=
  h <- getHandler ;;
  requestErr (CallDelete KNode None name (DeleteOptions (Options h))).

Definition deleteNode (node : TypedObject) : M Handler unit :=
  h <- getHandler ;;
  requestErr (CallDelete KNode None (Name (Meta node))
                (DeleteOptions (Options h))).

Definition DeleteFromBytes (data : bytes) : M Handler unit :=
  nodeJson <- lift (yaml_ToJSON data) ;;
  node <- lift (json_Unmarshal KNode nodeJson) ;;
  deleteNode node.

Definition DeleteFromFile (filename : string) : M Handler unit :=
  data <- lift (ReadFile filename) ;;
  DeleteFromBytes data.

Definition DeleteFromObject (obj : value) : M Handler unit :=
  match assertPtr KNode obj with
  | Some node => deleteNode node
  | None => fail (Errorf "object is not *corev1.Node")
  end.

Definition DeleteFromUnstructured (u : UMap) : M Handler unit :=
  node <- lift (FromUnstructured KNode u) ;;
  deleteNode node.

Definition Delete (obj : value) : M Handler unit :=
  match obj with
  | VString val => DeleteByName val
  | VBytes val => DeleteFromBytes val
  | VPtr KNode val => DeleteFromObject (VPtr KNode val)
  | VStruct KNode val => DeleteFromObject (VPtr KNode val)
  | VPtr _ _ | VUnstructuredPtr _ | VObject _ => DeleteFromObject obj
  | VMap val => DeleteFromUnstructured val
  | VStruct _ _ | VUnstructured _ | VOther _ => fail ERR_TYPE_DELETE
  end.

End Handler.
End Node.

(** *** rolebinding delete (unnamed/part_000) *)
Module RoleBinding.
Section Handler.
Context {sdk : SDK}.

Definition DeleteByName (name : string) : M Handler unit :=
  h <- getHandler ;;
  requestErr (CallDelete KRoleBinding (Some (namespace h)) name
                (DeleteOptions (Options h))).

Definition deleteRolebinding (rb : TypedObject) : M Handler unit :=
  h <- getHandler ;;
  let ns := resolveNamespace (Namespace (Meta rb)) (namespace h) in
  requestErr (CallDelete KRoleBinding (Some ns) (Name (Meta rb))
                (DeleteOptions (Options h))).

Definition DeleteFromBytes (data : bytes) : M Handler unit :=
  rbJson <- lift (yaml_ToJSON data) ;;
  rb <- lift (json_Unmarshal KRoleBinding rbJson) ;;
  deleteRolebinding rb.

Definition DeleteFromFile (filename : string) : M Handler unit :=
  data <- lift (ReadFile filename) ;;
  DeleteFromBytes data.

Definition DeleteFromObject (obj : value) : M Handler unit :=
  match assertPtr KRoleBinding obj with
  | Some rb => deleteRolebinding rb
  | None => fail (Errorf "object is not *rbacv1.RoleBinding")
  end.

Definition DeleteFromUnstructured (u : UMap) : M Handler unit :=
  rb <- lift (FromUnstructured KRoleBinding u) ;;
  deleteRolebinding rb.

Definition DeleteFromMap (u : UMap) : M Handler unit :=
  rb <- lift (FromUnstructured KRoleBinding u) ;;
  deleteRolebinding rb.

(** The [runtime.Object] case precedes the [*unstructured.Unstructured]
    case, so a [*unstructured.Unstructured] reaches [DeleteFromObject]. *)
Definition Delete (obj : value) : M Handler unit :=
  match obj with
  | VString val => DeleteByName val
  | VBytes val => DeleteFromBytes val
  | VPtr KRoleBinding val => DeleteFromObject (VPtr KRoleBinding val)
  | VStruct KRoleBinding val => DeleteFromObject (VPtr KRoleBinding val)
  | VPtr _ _ | VUnstructuredPtr _ | VObject _ => DeleteFromObject obj
  | VUnstructured val => DeleteFromUnstructured val
  | VMap val => DeleteFromMap val
  | VStruct _ _ | VOther _ => fail ERR_TYPE_DELETE
  end.

End Handler.
End RoleBinding.

(** *** configmap get (unnamed/part_003) *)
Module ConfigMap.
Section Handler.
Context {sdk : SDK}.

Definition GetByName (name : string) : M Handler TypedObject :=
  h <- getHandler ;;
  request (CallGet KConfigMap (Some (namespace h)) name
             (GetOptions (Options h))).

Definition getConfigmap (cm : TypedObject) : M Handler TypedObject :=
  h <- getHandler ;;
  let ns := resolveNamespace (Namespace (Meta cm)) (namespace h) in
  request (CallGet KConfigMap (Some ns) (Name (Meta cm))
             (GetOptions (Options h))).

Definition GetFromBytes (data : bytes) : M Handler TypedObject :=
  cmJson <- lift (yaml_ToJSON data) ;;
  cm <- lift (json_Unmarshal KConfigMap cmJson) ;;
  getConfigmap cm.

Definition GetFromFile (filename : string) : M Handler TypedObject :=
  data <- lift (ReadFile filename) ;;
  GetFromBytes data.

Definition GetFromObject (obj : value) : M Handler TypedObject :=
  match assertPtr KConfigMap obj with
  | Some cm => getConfigmap cm
  | None => fail (Errorf "object is not *corev1.ConfigMap")
  end.

Definition GetFromUnstructured (u : UMap) : M Handler TypedObject :=
  cm <- lift (FromUnstructured KConfigMap u) ;;
  getConfigmap cm.

(** This type switch has no [runtime.Object] case. *)
Definition Get (obj : value) : M Handler TypedObject :=
  match obj with
  | VString val => GetByName val
  | VBytes val => GetFromBytes val
  | VPtr KConfigMap val => GetFromObject (VPtr KConfigMap val)
  | VStruct KConfigMap val => GetFromObject (VPtr KConfigMap val)
  | VMap val => GetFromUnstructured val
  | VPtr _ _ | VStruct _ _ | VUnstructuredPtr _ | VUnstructured _
  | VObject _ | VOther _ => fail ERR_TYPE_GET
  end.

End Handler.
End ConfigMap.

(** *** dynamic delete (second part of rolebinding/informer.go) *)

(** [unstructured.NestedString(obj, a, b)] of the SDK, with the empty string
    when the field is missing or is not a string. *)
Fixpoint lookupField (k : string) (m : list (string * JSON)) : option JSON :=
  match m with
  | [] => None
  | (k', v) :: m' => if String.eqb k k' then Some v else lookupField k m'
  end.

Definition NestedString (m : UMap) (a b : string) : string :=
  match lookupField a m with
  | Some (JObj fields) =>
      match lookupField b fields with
      | Some (JStr s) => s
      | _ => ""
      end
  | _ => ""
  end.

(** [GetName] and [GetNamespace] of [unstructured.Unstructured] *)
Definition GetName (u : UMap) : string := NestedString u "metadata" "name".
Definition GetNamespace (u : UMap) : string :=
  NestedString u "metadata" "namespace".

(** What the dynamic handler uses besides [SDK]: the REST-mapping helpers of
    util/restmapper (applied to the handler's mapper), the kind names of
    package types, the option setter of the handler and the converters of
    the SDK.  [SetPropagationPolicy] writes the delete options of the
    handler and nothing else, as the method of that name in
    cronjob/cronjob.go does. *)
Class Discovery := {
  GVKToGVR : schema.GroupVersionKind -> Result schema.GroupVersionResource;
  FindGVR : UMap -> Result schema.GroupVersionResource;
  FindGVK : UMap -> Result schema.GroupVersionKind;
  IsNamespaced : schema.GroupVersionKind -> Result bool;
  KindJob : string;
  KindCronJob : string;
  SetPropagationPolicy : string -> HandlerOptions -> HandlerOptions;
  ToUnstructured : value -> Result UMap;
  json_UnmarshalUnstructured : bytes -> Result UMap
}.

Module Dynamic.

Record Handler := mkHandler {
  namespace : string;
  gvk : schema.GroupVersionKind;
  Options : HandlerOptions
}.

Section Handler.
Context {sdk : SDK} {disc : Discovery}.

(** [h.SetPropagationPolicy("background")] when the kind is Job or CronJob *)
Definition backgroundForJobs (k : schema.GroupVersionKind) : M Handler unit :=
  if String.eqb (schema.Kind k) KindJob || String.eqb (schema.Kind k) KindCronJob
  then modifyHandler (fun h => mkHandler (namespace h) (gvk h)
                                 (SetPropagationPolicy "background" (Options h)))
  else ret tt.

Definition DeleteByName (name : string) : M Handler unit :=
  h <- getHandler ;;
  gvr <- lift (GVKToGVR (gvk h)) ;;
  isNamespaced <- lift (IsNamespaced (gvk h)) ;;
  _ <- backgroundForJobs (gvk h) ;;
  h <- getHandler ;;
  if (isNamespaced : bool) then
    requestErr (CallDynamicDelete gvr (Some (namespace h)) name
                  (DeleteOptions (Options h)))
  else
    requestErr (CallDynamicDelete gvr None name (DeleteOptions (Options h))).

Definition deleteUnstructured (obj : UMap) : M Handler unit :=
  gvr <- lift (FindGVR obj) ;;
  gvk <- lift (FindGVK obj) ;;
  isNamespaced <- lift (IsNamespaced gvk) ;;
  _ <- backgroundForJobs gvk ;;
  h <- getHandler ;;
  if (isNamespaced : bool) then
    let ns := resolveNamespace (GetNamespace obj) (namespace h) in
    requestErr (CallDynamicDelete gvr (Some ns) (GetName obj)
                  (DeleteOptions (Options h)))
  else
    requestErr (CallDynamicDelete gvr None (GetName obj)
                  (DeleteOptions (Options h))).

Definition DeleteFromBytes (data : bytes) : M Handler unit :=
  unstructJson <- lift (yaml_ToJSON data) ;;
  unstructObj <- lift (json_UnmarshalUnstructured unstructJson) ;;
  deleteUnstructured unstructObj.

Definition DeleteFromFile (filename : string) : M Handler unit :=
  data <- lift (ReadFile filename) ;;
  DeleteFromBytes data.

Definition DeleteFromObject (obj : value) : M Handler unit :=
  unstructMap <- lift (ToUnstructured obj) ;;
  deleteUnstructured unstructMap.

Definition DeleteFromMap (obj : UMap) : M Handler unit :=
  deleteUnstructured obj.

Definition Delete (obj : value) : M Handler unit :=
  match obj with
  | VString val => DeleteByName val
  | VBytes val => DeleteFromBytes val
  | VUnstructuredPtr val => deleteUnstructured val
  | VUnstructured val => deleteUnstructured val
  | VMap val => DeleteFromMap val
  | VPtr _ _ | VObject _ => DeleteFromObject obj
  | VStruct _ _ | VOther _ => fail ErrInvalidDeleteType
  end.

End Handler.
End Dynamic.

(** ** namespace watch (unnamed/part_004) *)

(** [watch.EventType] is a string type: the five constants and any other
    string. *)
Inductive EventType :=
| Added | Modified | Deleted | Bookmark | Error | EventTypeOther (s : string).

(** [watch.Event] *)
Record Event := mkEvent {
  Type_ : EventType;
  Object : value
}.

(** [metav1.ListOptions], the fields the watch functions set. *)
Record ListOptions := mkListOptions {
  LabelSelector : string;
  FieldSelector : string;
  TimeoutSeconds : option Z
}.

(** What one [Watch] request on the API yields: an error, or a watcher whose
    result channel delivers [events] and is then closed by the server when
    [closes] holds, and stays open and silent forever otherwise. *)
Record Watcher := mkWatcher {
  events : list Event;
  closes : bool
}.

(** How a run of the loop stands after a bounded number of rounds. *)
Inductive Outcome :=
| Returned (err : error)   (* the function returned [err] *)
| Blocked                  (* waiting on a channel that never closes *)
| Looping.                 (* back at the head of the [for] loop *)

Module Namespace.
Section Handler.
(** [U] is whatever the caller's callbacks act on. *)
Variable U : Type.
(** The answer of the API server to the [n]-th [Watch] request of a run. *)
Variable connect : nat -> ListOptions -> Result Watcher.
(** [fields.ParseSelector] followed by [String()] *)
Variable ParseSelector : string -> Result string.

Definition callback := value -> U -> U.

Record WatchState := mkWatchState {
  user : U;          (* the state the callbacks act on *)
  opened : nat;      (* [Watch] requests sent *)
  stopped : nat      (* watchers stopped after their channel closed *)
}.

(** The [switch event.Type] of the loop body. *)
Definition dispatch (addFunc modifyFunc deleteFunc : callback)
  (event : Event) (u : U) : U :=
  match Type_ event with
  | Added => addFunc (Object event) u
  | Modified => modifyFunc (Object event) u
  | Deleted => deleteFunc (Object event) u
  | Bookmark => u
  | Error => u
  | EventTypeOther _ => u
  end.

(** [for event := range watcher.ResultChan() { ... }] *)
Definition drain (addFunc modifyFunc deleteFunc : callback)
  (evs : list Event) (u : U) : U :=
  fold_left (fun u event => dispatch addFunc modifyFunc deleteFunc event u)
            evs u.

(** The [for { ... }] loop of [watchNamespace]; [fuel] bounds the number of
    rounds that are run. *)
Fixpoint watchNamespace (fuel : nat) (listOptions : ListOptions)
  (addFunc modifyFunc deleteFunc : callback) (st : WatchState)
  : Outcome * WatchState :=
  match fuel with
  | O => (Looping, st)
  | S fuel' =>
      match connect (opened st) listOptions with
      | inl err =>
          (Returned err, mkWatchState (user st) (S (opened st)) (stopped st))
      | inr watcher =>
          let u := drain addFunc modifyFunc deleteFunc (events watcher)
                         (user st) in
          if closes watcher then
            watchNamespace fuel' listOptions addFunc modifyFunc deleteFunc
              (mkWatchState u (S (opened st)) (S (stopped st)))
          else (Blocked, mkWatchState u (S (opened st)) (stopped st))
      end
  end.

Definition WatchByLabel (fuel : nat) (labels : string)
  (addFunc modifyFunc deleteFunc : callback) (st : WatchState)
  : Outcome * WatchState :=
  watchNamespace fuel (mkListOptions labels "" (Some 0%Z))
    addFunc modifyFunc deleteFunc st.

(** [metav1.SingleObject] selects on the field [metadata.name]. *)
Definition WatchByName (fuel : nat) (name : string)
  (addFunc modifyFunc deleteFunc : callback) (st : WatchState)
  : Outcome * WatchState :=
  watchNamespace fuel
    (mkListOptions "" (String.append "metadata.name=" name) (Some 0%Z))
    addFunc modifyFunc deleteFunc st.


(** [return h.WatchByLabel("", addFunc, deleteFunc, modifyFunc)] *)
Definition Watch (fuel : nat) (addFunc modifyFunc deleteFunc : callback)
  (st : WatchState) : Outcome * WatchState :=
  WatchByLabel fuel "" addFunc deleteFunc modifyFunc st.

End Handler.
End Namespace.

(** ** Vocabulary of the statements *)

(** The patch type a caller selects with [patchOptions]: the first option
    when it is JSONPatchType or MergePatchType, strategic merge otherwise. *)
Definition selectedPatchType (patchOptions : list PatchType) : PatchType :=
  match patchOptions with
  | JSONPatchType :: _ => JSONPatchType
  | MergePatchType :: _ => MergePatchType
  | _ => StrategicMergePatchType
  end.

(** The same for a typed modified object, where only MergePatchType is
    honoured. *)
Definition selectedDiffPatchType (patchOptions : list PatchType) : PatchType :=
  match patchOptions with
  | MergePatchType :: _ => MergePatchType
  | _ => StrategicMergePatchType
  end.

(** The modified object behind a typed patch argument of kind [k]: a
    pointer, a value, an unstructured object or a generic map. *)
Definition typedModified {sdk : SDK} (k : Kind) (patch : value)
  : option (Result TypedObject) :=
  match patch with
  | VPtr k' o | VStruct k' o => if Kind_eqb k k' then Some (inr o) else None
  | VUnstructuredPtr u | VUnstructured u | VMap u =>
      Some (FromUnstructured k u)
  | _ => None
  end.

(** The input shapes the doc comments of the typed handlers list: string,
    []byte, *T, T, runtime.Object and map[string]interface{}. *)
Definition documented (k : Kind) (v : value) : bool :=
  match v with
  | VString _ | VBytes _ | VMap _ => true
  | VStruct k' _ => Kind_eqb k k'
  | _ => implementsObject v
  end.

(** The handlers that also list *unstructured.Unstructured and
    unstructured.Unstructured. *)
Definition documentedU (k : Kind) (v : value) : bool :=
  match v with
  | VUnstructured _ => true
  | _ => documented k v
  end.

(** The object a request carries, for the verbs that carry one. *)
Definition sentObject (c : APICall) : option TypedObject :=
  match c with
  | CallCreate _ _ o _ | CallUpdate _ _ o _ => Some o
  | _ => None
  end.

(** A request that carries an object whose resourceVersion and uid are
    empty. *)
Definition sentCleared (c : APICall) : Prop :=
  match sentObject c with
  | Some o => ResourceVersion (Meta o) = "" /\ UID (Meta o) = ""
  | None => False
  end.

(** The namespace a request targets. *)
Definition targetNamespace (c : APICall) : option string :=
  match c with
  | CallCreate _ ns _ _ | CallUpdate _ ns _ _ | CallDelete _ ns _ _
  | CallGet _ ns _ _ | CallPatch _ ns _ _ _ _ | CallDynamicDelete _ ns _ _ =>
      ns
  end.

(** The patch type of a request, for Patch requests. *)
Definition patchTypeOf (c : APICall) : option PatchType :=
  match c with
  | CallPatch _ _ _ pt _ _ => Some pt
  | _ => None
  end.

(** The two packages whose Patch is among the sources. *)
Inductive PatchPackage := persistentvolume | clusterrole.

Definition kindOf (p : PatchPackage) : Kind :=
  match p with
  | persistentvolume => KPersistentVolume
  | clusterrole => KClusterRole
  end.

Definition PatchOf {sdk : SDK} (p : PatchPackage)
  : TypedObject -> value -> list PatchType -> M Handler TypedObject :=
  match p with
  | persistentvolume => PersistentVolume.Patch
  | clusterrole => ClusterRole.Patch
  end.

(** The patch data behind a file path or raw bytes: the bytes, read from
    the file for a path, converted from YAML to JSON. *)
Definition rawPatchData {sdk : SDK} (patch : value) : option (Result bytes) :=
  match patch with
  | VString path =>
      Some match ReadFile path with
           | inl e => inl e
           | inr data => yaml_ToJSON data
           end
  | VBytes data => Some (yaml_ToJSON data)
  | _ => None
  end.

(** The two-way strategic merge patch between the JSON forms of two
    objects of kind [k]. *)
Definition twoWayDiff {sdk : SDK} (k : Kind) (original modified : TypedObject)
  : Result bytes :=
  match json_Marshal k original with
  | inl e => inl e
  | inr originalJson =>
      match json_Marshal k modified with
      | inl e => inl e
      | inr modifiedJson => CreateTwoWayMergePatch originalJson modifiedJson k
      end
  end.

(** The patch data of a Patch call on the strategic-merge, JSON-merge and
    diff-based paths; [None] on the JSON-patch path and for arguments that
    are no patch. *)
Definition mergePathData {sdk : SDK} (k : Kind) (original : TypedObject)
  (patch : value) (patchOptions : list PatchType) : option (Result bytes) :=
  match patch with
  | VString _ | VBytes _ =>
      if firstOptionIs JSONPatchType patchOptions then None
      else rawPatchData patch
  | _ =>
      match typedModified k patch with
      | Some (inr modified) => Some (twoWayDiff k original modified)
      | _ => None
      end
  end.

(** The namespace the claim expects a request to target, given the
    namespace recorded in the object and the one the handler is configured
    with. *)
Definition namespaceFor (objNamespace handlerNamespace : string)
  (ns : option string) : Prop :=
  (objNamespace <> "" -> ns = Some objNamespace) /\
  (objNamespace = "" -> ns = Some handlerNamespace).

(** Running [m] from [w] sends exactly one request, and it targets the
    namespace expected for [objNamespace] and [handlerNamespace]. *)
Definition sendsOneTo {sdk : SDK} {H R : Type} (m : M H R) (w : World H)
  (objNamespace handlerNamespace : string) : Prop :=
  exists c, calls (snd (m w)) = (calls w ++ [c])%list /\
            namespaceFor objNamespace handlerNamespace (targetNamespace c).

(** The input shapes the doc comment of the dynamic handler lists: string,
    []byte, runtime.Object, *unstructured.Unstructured,
    unstructured.Unstructured and map[string]interface{}. *)
Definition documentedDynamic (v : value) : bool :=
  match v with
  | VString _ | VBytes _ | VMap _ | VUnstructured _ => true
  | _ => implementsObject v
  end.

(** An object with resourceVersion and uid emptied and all else kept. *)
Definition cleared (o : TypedObject) : TypedObject :=
  mkObj (mkMeta (Name (Meta o)) (Namespace (Meta o)) "" "") (Content o).

(** The [n]-th Watch request of a run is answered by a watcher whose
    channel the server closes. *)
Definition reconnects (connect : nat -> ListOptions -> Result Watcher)
  (listOptions : ListOptions) (n : nat) : Prop :=
  exists watcher, connect n listOptions = inr watcher /\
                  closes watcher = true.

(** ** A small concrete SDK

    One instance of the collaborators, on which the general statements are
    run: a file system with three files, codecs that read the object name off
    the first byte run, a differ that answers [{}] on equal documents, and a
    server that remembers which names exist. *)
Module Sample.

Definition manifest : bytes := bytes_of "web".

Definition readFile (path : string) : Result bytes :=
  if String.eqb path "web.yaml" then inr manifest
  else if String.eqb path "patch.yaml" then inr (bytes_of "{x}")
  else if String.eqb path "empty.yaml" then inr (bytes_of "{}")
  else inl (ErrExternal "no such file").

Definition decode (k : Kind) (data : bytes) : Result TypedObject :=
  match data with
  | [] => inl (ErrExternal "unexpected end of JSON input")
  | _ => inr (mkObj (mkMeta (string_of_list_byte data) "prod" "41" "u-1") data)
  end.

Definition encode (k : Kind) (o : TypedObject) : Result bytes :=
  inr (bytes_of (Name (Meta o)) ++ bytes_of (Namespace (Meta o)) ++ Content o)%list.

Definition fromMap (k : Kind) (u : UMap) : Result TypedObject :=
  inr (mkObj (mkMeta (GetName u) (GetNamespace u) "7" "u-2") []).

Definition twoWay (a b : bytes) (k : Kind) : Result bytes :=
  if bytes_eqb a b then inr (bytes_of "{}") else inr b.

Definition nameOf (c : APICall) : string :=
  match c with
  | CallCreate _ _ o _ | CallUpdate _ _ o _ => Name (Meta o)
  | CallDelete _ _ n _ | CallGet _ _ n _ | CallPatch _ _ n _ _ _
  | CallDynamicDelete _ _ n _ => n
  end.

Definition exists_in (n : string) (cl : list string) : bool :=
  existsb (String.eqb n) cl.

Definition answer (c : APICall) (cl : list string)
  : Result TypedObject * list string :=
  let stored := mkObj (mkMeta (nameOf c) "prod" "42" "u-1") [] in
  match c with
  | CallCreate _ _ o _ =>
      if exists_in (nameOf c) cl then (inl (StatusError AlreadyExists), cl)
      else (inr o, nameOf c :: cl)
  | CallDelete _ _ _ _ | CallDynamicDelete _ _ _ _ =>
      if exists_in (nameOf c) cl
      then (inr stored, filter (fun n => negb (String.eqb n (nameOf c))) cl)
      else (inl (StatusError NotFound), cl)
  | _ =>
      if exists_in (nameOf c) cl then (inr stored, cl)
      else (inl (StatusError NotFound), cl)
  end.

#[export] Instance sdk : SDK := {|
  Cluster := list string;
  ReadFile := readFile;
  yaml_ToJSON := fun b => inr b;
  json_Unmarshal := decode;
  json_Marshal := encode;
  FromUnstructured := fromMap;
  CreateTwoWayMergePatch := twoWay;
  serve := answer
|}.

#[export] Instance disc : Discovery := {|
  GVKToGVR := fun k => inr (schema.mkGVR (schema.Group k) (schema.Version k)
                             (String.append (schema.Kind k) "s"));
  FindGVR := fun u => inr (schema.mkGVR "batch" "v1" "jobs");
  FindGVK := fun u => inr (schema.mkGVK "batch" "v1" "Job");
  IsNamespaced := fun k => inr true;
  KindJob := "Job";
  KindCronJob := "CronJob";
  SetPropagationPolicy := fun p o =>
    mkOptions (CreateOptions o) (UpdateOptions o) (bytes_of p) (GetOptions o)
              (PatchOptions o);
  ToUnstructured := fun v => inl (ErrExternal "not convertible");
  json_UnmarshalUnstructured := fun b => inl (ErrExternal "not a map")
|}.

Definition options : HandlerOptions := mkOptions [] [] [] [] [].

Definition h0 : Handler := mkHandler "" "default" options.

(** A world where the object "web" exists already. *)
Definition w0 : World Handler := mkWorld h0 [] ["web"].

(** A world with an empty cluster. *)
Definition w1 : World Handler := mkWorld h0 [] [].

Definition web : TypedObject := mkObj (mkMeta "web" "prod" "41" "u-1") manifest.

Definition bare : TypedObject := mkObj (mkMeta "web" "" "41" "u-1") manifest.

Definition dh0 : Dynamic.Handler :=
  Dynamic.mkHandler "default" (schema.mkGVK "batch" "v1" "Job") options.

Definition dw0 : World Dynamic.Handler := mkWorld dh0 [] ["web"].

Definition job : UMap :=
  [("kind", JStr "Job");
   ("metadata", JObj [("name", JStr "web"); ("namespace", JStr "batch")])].

(** Watch: callbacks that write their name and argument to a journal, and
    a server whose first two watchers are closed after one event each and
    whose third request is refused. *)
Definition journal := list (string * value).

Definition note (tag : string) : value -> journal -> journal :=
  fun obj j => (j ++ [(tag, obj)])%list.

Definition ns1 : value := VPtr KNamespace (mkObj (mkMeta "ns1" "" "1" "a") []).

Definition connect (n : nat) (o : ListOptions) : Result Watcher :=
  match n with
  | 0 => inr (mkWatcher [mkEvent Modified ns1] true)
  | 1 => inr (mkWatcher [mkEvent Added ns1; mkEvent Bookmark ns1;
                         mkEvent Deleted ns1] true)
  | _ => inl (ErrExternal "connection refused")
  end.

Definition start : Namespace.WatchState journal :=
  Namespace.mkWatchState [] 0 0.

End Sample.

(** * Further handlers and their vocabulary *)

(** ** ingress get (second part of unnamed/part_001) *)

(** [networkingv1.Ingress] *)
Definition KIngress : Kind := KindOther "Ingress".

Module Ingress.
Section Handler.
Context {sdk : SDK}.

Definition GetByName (name : string) : M Handler TypedObject :=
  h <- getHandler ;;
  request (CallGet KIngress (Some (namespace h)) name
             (GetOptions (Options h))).

Definition getIngress (ing : TypedObject) : M Handler TypedObject :=
  h <- getHandler ;;
  let ns := resolveNamespace (Namespace (Meta ing)) (namespace h) in
  request (CallGet KIngress (Some ns) (Name (Meta ing))
             (GetOptions (Options h))).

Definition GetFromBytes (data : bytes) : M Handler TypedObject :=
  ingJson <- lift (yaml_ToJSON data) ;;
  ing <- lift (json_Unmarshal KIngress ingJson) ;;
  getIngress ing.

Definition GetFromFile (filename : string) : M Handler TypedObject :=
  data <- lift (ReadFile filename) ;;
  GetFromBytes data.

Definition GetFromObject (obj : value) : M Handler TypedObject :=
  match assertPtr KIngress obj with
  | Some ing => getIngress ing
  | None => fail (Errorf "object is not *networkingv1.Ingress")
  end.

Definition GetFromUnstructured (u : UMap) : M Handler TypedObject :=
  ing <- lift (FromUnstructured KIngress u) ;;
  getIngress ing.

(** As in configmap, the type switch has no [runtime.Object] case. *)
Definition Get (obj : value) : M Handler TypedObject :=
  match obj with
  | VString val => GetByName val
  | VBytes val => GetFromBytes val
  | VPtr k val =>
      if Kind_eqb k KIngress then GetFromObject (VPtr k val)
      else fail ERR_TYPE_GET
  | VStruct k val =>
      if Kind_eqb k KIngress then GetFromObject (VPtr k val)
      else fail ERR_TYPE_GET
  | VMap val => GetFromUnstructured val
  | VUnstructuredPtr _ | VUnstructured _ | VObject _ | VOther _ =>
      fail ERR_TYPE_GET
  end.

End Handler.
End Ingress.

(** ** The typed operations side by side *)

Inductive TypedOp :=
| DeploymentUpdate | DaemonSetUpdate | PersistentVolumeClaimCreate
| NodeDelete | RoleBindingDelete | ConfigMapGet | IngressGet.

Definition opKind (op : TypedOp) : Kind :=
  match op with
  | DeploymentUpdate => KDeployment
  | DaemonSetUpdate => KDaemonSet
  | PersistentVolumeClaimCreate => KPersistentVolumeClaim
  | NodeDelete => KNode
  | RoleBindingDelete => KRoleBinding
  | ConfigMapGet => KConfigMap
  | IngressGet => KIngress
  end.

(** A method seen through what it hands back: the error, and the object for
    the methods that return one. *)
Definition returning {sdk : SDK} {H A : Type} (f : A -> option TypedObject)
  (m : M H A) : M H (option TypedObject) :=
  fun w => match m w with
           | (inl e, w') => (inl e, w')
           | (inr a, w') => (inr (f a), w')
           end.

Definition noObject (_ : unit) : option TypedObject := None.

(** The public method of each operation. *)
Definition runOp {sdk : SDK} (op : TypedOp) (v : value)
  : M Handler (option TypedObject) :=
  match op with
  | DeploymentUpdate => returning Some (Deployment.Update v)
  | DaemonSetUpdate => returning Some (DaemonSet.Update v)
  | PersistentVolumeClaimCreate =>
      returning Some (PersistentVolumeClaim.Create v)
  | NodeDelete => returning noObject (Node.Delete v)
  | RoleBindingDelete => returning noObject (RoleBinding.Delete v)
  | ConfigMapGet => returning Some (ConfigMap.Get v)
  | IngressGet => returning Some (Ingress.Get v)
  end.

(** The private method that sends the request for a typed object. *)
Definition onObject {sdk : SDK} (op : TypedOp) (o : TypedObject)
  : M Handler (option TypedObject) :=
  match op with
  | DeploymentUpdate => returning Some (Deployment.updateDeployment o)
  | DaemonSetUpdate => returning Some (DaemonSet.updateDaemonset o)
  | PersistentVolumeClaimCreate =>
      returning Some (PersistentVolumeClaim.createPVC o)
  | NodeDelete => returning noObject (Node.deleteNode o)
  | RoleBindingDelete => returning noObject (RoleBinding.deleteRolebinding o)
  | ConfigMapGet => returning Some (ConfigMap.getConfigmap o)
  | IngressGet => returning Some (Ingress.getIngress o)
  end.



(** The operations whose type switch has a [runtime.Object] case. *)
Definition hasObjectCase (op : TypedOp) : bool :=
  match op with
  | ConfigMapGet | IngressGet => false
  | _ => true
  end.

(** What an operation answers to a [runtime.Object] that is not a pointer
    to its own struct. *)
Definition notOwnType (op : TypedOp) : error :=
  match op with
  | DeploymentUpdate => Errorf "object is not *appsv1.Deployment"
  | DaemonSetUpdate => Errorf "object is not *appsv1.DaemonSet"
  | PersistentVolumeClaimCreate =>
      Errorf "object is not *corev1.PersistentVolumeClaim"
  | NodeDelete => Errorf "object is not *corev1.Node"
  | RoleBindingDelete => Errorf "object is not *rbacv1.RoleBinding"
  | ConfigMapGet | IngressGet => ERR_TYPE_GET
  end.


(** ** Vocabulary for the dynamic delete and the watch loop *)

(** What the REST mapper finds out about an unstructured object, in the
    order deleteUnstructured asks: resource, kind, scope. *)
Definition resolved {disc : Discovery} (u : UMap)
  : Result (schema.GroupVersionResource * schema.GroupVersionKind * bool) :=
  match FindGVR u with
  | inl e => inl e
  | inr gvr =>
      match FindGVK u with
      | inl e => inl e
      | inr gvk =>
          match IsNamespaced gvk with
          | inl e => inl e
          | inr isNamespaced => inr (gvr, gvk, isNamespaced)
          end
      end
  end.

(** The kinds deleted with background propagation. *)
Definition isJobKind {disc : Discovery} (k : schema.GroupVersionKind) : bool :=
  String.eqb (schema.Kind k) KindJob || String.eqb (schema.Kind k) KindCronJob.

(** The delete options a request of the dynamic handler carries. *)
Definition deleteOptionsOf (c : APICall) : option bytes :=
  match c with
  | CallDynamicDelete _ _ _ opts | CallDelete _ _ _ opts => Some opts
  | _ => None
  end.

(** The events of the watchers that [n] successive Watch requests yield,
    from request [from] on, in the order of arrival; a refused request
    yields none. *)
Fixpoint delivered (connect : nat -> ListOptions -> Result Watcher)
  (listOptions : ListOptions) (from n : nat) : list Event :=
  match n with
  | O => []
  | S n' =>
      match connect from listOptions with
      | inl _ => []
      | inr watcher => events watcher
      end ++ delivered connect listOptions (S from) n'
  end.

(** The events the loop has a callback for. *)
Definition hasCallback (event : Event) : bool :=
  match Type_ event with
  | Added | Modified | Deleted => true
  | _ => false
  end.

(** ** A second concrete setting

    A REST mapper that reads the kind off the object, knows four kinds and
    reports nodes as cluster-scoped, over the collaborators of [Sample]. *)
Module Fixture.

Definition kindOfMap (u : UMap) : Result string :=
  match lookupField "kind" u with
  | Some (JStr k) =>
      if String.eqb k "Job" || String.eqb k "CronJob" || String.eqb k "Pod"
         || String.eqb k "Node"
      then inr k
      else inl (ErrExternal "no matches for kind")
  | _ => inl (ErrExternal "Object 'Kind' is missing")
  end.

Definition findGVK (u : UMap) : Result schema.GroupVersionKind :=
  match kindOfMap u with
  | inl e => inl e
  | inr k => inr (schema.mkGVK "" "v1" k)
  end.

Definition findGVR (u : UMap) : Result schema.GroupVersionResource :=
  match kindOfMap u with
  | inl e => inl e
  | inr k => inr (schema.mkGVR "" "v1" (String.append k "s"))
  end.

#[export] Instance disc : Discovery := {|
  GVKToGVR := fun k => inr (schema.mkGVR (schema.Group k) (schema.Version k)
                             (String.append (schema.Kind k) "s"));
  FindGVR := findGVR;
  FindGVK := findGVK;
  IsNamespaced := fun k => inr (negb (String.eqb (schema.Kind k) "Node"));
  KindJob := "Job";
  KindCronJob := "CronJob";
  SetPropagationPolicy := fun p o =>
    mkOptions (CreateOptions o) (UpdateOptions o) (bytes_of p) (GetOptions o)
              (PatchOptions o);
  ToUnstructured := fun v => inl (ErrExternal "not convertible");
  json_UnmarshalUnstructured := fun b => inl (ErrExternal "not a map")
|}.

Definition object (kind name ns : string) : UMap :=
  [("kind", JStr kind);
   ("metadata", JObj [("name", JStr name); ("namespace", JStr ns)])].

Definition job : UMap := object "Job" "nightly" "batch".
Definition pod : UMap := object "Pod" "web" "prod".
Definition node : UMap := object "Node" "n1" "prod".
Definition widget : UMap := object "Widget" "w" "prod".

Definition dh : Dynamic.Handler :=
  Dynamic.mkHandler "default" (schema.mkGVK "" "v1" "Node") Sample.options.

Definition dw : World (sdk := Sample.sdk) Dynamic.Handler :=
  mkWorld (sdk := Sample.sdk) dh [] ["web"].

End Fixture.

(** ** serviceaccount/watch.go *)


Module ServiceAccount.
Section Handler.
(** [U] is whatever the caller's callbacks act on. *)
Variable U : Type.
(** The answer of the API server to the [n]-th [Watch] request of a run, on
    the service accounts of a namespace. *)
Variable connect : nat -> string -> ListOptions -> Result Watcher.
(** The answers to [h.Get(name)] and [h.List(labelSelector)] issued right
    after the [n]-th [Watch] request; both methods are defined in files of
    the package that are not among the sources. *)
Variable Get : nat -> string -> Result TypedObject.
Variable List : nat -> string -> Result (list TypedObject).
(** [h.namespace] *)
Variable namespace : string.

Definition callback := value -> U -> U.

(** The [switch event.Type] of the loop body, on the caller's state and
    the local [isExist]. *)
Definition dispatch (addFunc modifyFunc deleteFunc : callback) (x : value)
  (s : U * bool) (event : Event) : U * bool :=
  let (u, isExist) := s in
  match Type_ event with
  | Added => (if isExist then u else addFunc x u, true)
  | Modified => (modifyFunc x u, true)
  | Deleted => (deleteFunc x u, false)
  | Bookmark => (u, isExist)
  | Error => (u, isExist)
  | EventTypeOther _ => (u, isExist)
  end.

(** [for event := range watcher.ResultChan() { ... }] *)
Definition drain (addFunc modifyFunc deleteFunc : callback) (x : value)
  (evs : list Event) (s : U * bool) : U * bool :=
  fold_left (dispatch addFunc modifyFunc deleteFunc x) evs s.

Record WatchState := mkWatchState {
  user : U;        (* the state the callbacks act on *)
  opened : nat     (* [Watch] requests sent *)
}.

(** [metav1.SingleObject] selects on the field [metadata.name]. *)
Definition singleObject (name : string) : ListOptions :=
  mkListOptions "" (String.append "metadata.name=" name) (Some 0%Z).

Fixpoint WatchByName (fuel : nat) (name : string)
  (addFunc modifyFunc deleteFunc : callback) (x : value) (st : WatchState)
  : Outcome * WatchState :=
  match fuel with
  | O => (Looping, st)
  | S fuel' =>
      match connect (opened st) namespace (singleObject name) with
      | inl err => (Returned err, mkWatchState (user st) (S (opened st)))
      | inr watcher =>
          let isExist := match Get (opened st) name with
                         | inl _ => false
                         | inr _ => true
                         end in
          let u := fst (drain addFunc modifyFunc deleteFunc x
                          (events watcher) (user st, isExist)) in
          if closes watcher then
            WatchByName fuel' name addFunc modifyFunc deleteFunc x
              (mkWatchState u (S (opened st)))
          else (Blocked, mkWatchState u (S (opened st)))
      end
  end.

Fixpoint WatchByLabel (fuel : nat) (labelSelector : string)
  (addFunc modifyFunc deleteFunc : callback) (x : value) (st : WatchState)
  : Outcome * WatchState :=
  match fuel with
  | O => (Looping, st)
  | S fuel' =>
      match connect (opened st) namespace
              (mkListOptions labelSelector "" (Some 0%Z)) with
      | inl err => (Returned err, mkWatchState (user st) (S (opened st)))
      | inr watcher =>
          match List (opened st) labelSelector with
          | inl err => (Returned err, mkWatchState (user st) (S (opened st)))
          | inr serviceaccountList =>
              let isExist := negb (Nat.eqb (length serviceaccountList) 0) in
              let u := fst (drain addFunc modifyFunc deleteFunc x
                              (events watcher) (user st, isExist)) in
              if closes watcher then
                WatchByLabel fuel' labelSelector addFunc modifyFunc
                  deleteFunc x (mkWatchState u (S (opened st)))
              else (Blocked, mkWatchState u (S (opened st)))
          end
      end
  end.

Definition Watch (fuel : nat) (name : string)
  (addFunc modifyFunc deleteFunc : callback) (x : value) (st : WatchState)
  : Outcome * WatchState :=
  WatchByName fuel name addFunc modifyFunc deleteFunc x st.

End Handler.
End ServiceAccount.








(** ** Handler construction and options

    deployment/deployment.go and cronjob/cronjob.go. *)

(** The option structs of the SDK, with the fields the handlers write and
    one field of each that they leave alone. *)
Module metav1.

Definition NamespaceDefault : string := "default".
Definition NamespaceAll : string := "".
Definition DryRunAll : string := "All".

(** [DeletionPropagation] is a string type. *)
Definition DeletePropagationOrphan : string := "Orphan".
Definition DeletePropagationBackground : string := "Background".
Definition DeletePropagationForeground : string := "Foreground".

Record ListOptions := mkList {
  ListLabelSelector : string;
  ListTimeoutSeconds : option Z;
  ListLimit : Z
}.

Record GetOptions := mkGet {
  GetResourceVersion : string
}.

Record CreateOptions := mkCreate {
  CreateDryRun : list string;
  CreateFieldManager : string
}.

Record UpdateOptions := mkUpdate {
  UpdateDryRun : list string;
  UpdateFieldManager : string
}.

Record DeleteOptions := mkDelete {
  GracePeriodSeconds : option Z;
  PropagationPolicy : option string;
  DeleteDryRun : list string
}.

Record PatchOptions := mkPatch {
  PatchDryRun : list string;
  PatchFieldManager : string
}.

Record ApplyOptions := mkApply {
  ApplyDryRun : list string;
  ApplyFieldManager : string
}.

End metav1.

(** Modelled from the spec: [HandlerOptions] of packages typed and types is
    declared in files that are not among the sources; its fields are the
    seven option structs that deployment.go and cronjob.go read and
    write. *)
Module typed.

Record HandlerOptions := mkOptions {
  ListOptions : metav1.ListOptions;
  GetOptions : metav1.GetOptions;
  CreateOptions : metav1.CreateOptions;
  UpdateOptions : metav1.UpdateOptions;
  DeleteOptions : metav1.DeleteOptions;
  PatchOptions : metav1.PatchOptions;
  ApplyOptions : metav1.ApplyOptions
}.

(** [&HandlerOptions{}] *)
Definition zero : HandlerOptions :=
  mkOptions (metav1.mkList "" None 0%Z) (metav1.mkGet "")
    (metav1.mkCreate [] "") (metav1.mkUpdate [] "")
    (metav1.mkDelete None None []) (metav1.mkPatch [] "")
    (metav1.mkApply [] "").

End typed.

(** [rest.Config]: the host stands for what a kubeconfig file or the pod
    environment yields; the other three fields are the ones [New] writes. *)
Record RestConfig := mkRestConfig {
  Host : string;
  APIPath : string;
  GroupVersion : option (string * string);
  NegotiatedSerializer : option string
}.

(** client-go as the constructors use it: where a configuration comes from
    and the clients built on it. *)
Class ClientGo := {
  GoContext : Type;
  HTTPClient : Type;
  RESTClient : Type;
  Clientset : Type;
  DynamicClient : Type;
  DiscoveryClient : Type;
  InformerFactory : Type;
  Informer : Type;
  BuildConfigFromFlags : string -> string -> Result RestConfig;
  InClusterConfig : Result RestConfig;
  Getenv : string -> string;
  RecommendedHomeFile : string;
  HTTPClientFor : RestConfig -> Result HTTPClient;
  RESTClientFor : RestConfig -> Result RESTClient;
  RESTClientForConfigAndClient : RestConfig -> HTTPClient -> Result RESTClient;
  NewForConfig : RestConfig -> Result Clientset;
  NewForConfigAndClient : RestConfig -> HTTPClient -> Result Clientset;
  NewDynamicForConfig : RestConfig -> Result DynamicClient;
  NewDynamicForConfigAndClient :
    RestConfig -> HTTPClient -> Result DynamicClient;
  NewDiscoveryClientForConfig : RestConfig -> Result DiscoveryClient;
  NewDiscoveryClientForConfigAndClient :
    RestConfig -> HTTPClient -> Result DiscoveryClient;
  NewSharedInformerFactory : Clientset -> Z -> InformerFactory;
  DeploymentsInformer : InformerFactory -> Informer
}.

(** [clientcmd.RecommendedConfigPathEnvVar] *)
Definition RecommendedConfigPathEnvVar : string := "KUBECONFIG".

(** [x, err := f(...); if err != nil { return nil, err }] *)
Definition andThen {A B : Type} (r : Result A) (k : A -> Result B)
  : Result B :=
  match r with
  | inl e => inl e
  | inr a => k a
  end.

(** How a method that takes the handler's lock ends, with the handler as it
    then is: it returns, it waits for ever for a lock that is held, or it
    unlocks a lock that is not held, which is fatal. *)
Inductive Run (A : Type) : Type :=
| Done (a : A)
| Blocks (a : A)
| Fatal (a : A).

Arguments Done {A} a.
Arguments Blocks {A} a.
Arguments Fatal {A} a.

Definition next {A : Type} (r : Run A) (k : A -> Run A) : Run A :=
  match r with
  | Done a => k a
  | Blocks a => Blocks a
  | Fatal a => Fatal a
  end.

(** *** deployment/deployment.go *)
Module DeploymentHandler.
Section Handler.
Context {cg : ClientGo}.

Record Handler := mkHandler {
  kubeconfig : string;
  namespace : string;
  ctx : GoContext;
  config : RestConfig;
  restClient : RESTClient;
  clientset : Clientset;
  dynamicClient : DynamicClient;
  discoveryClient : DiscoveryClient;
  informerFactory : InformerFactory;
  informer : Informer;
  Options : typed.HandlerOptions;
  locked : bool   (* the embedded sync.Mutex *)
}.

Definition withOptions (o : typed.HandlerOptions) (h : Handler) : Handler :=
  mkHandler (kubeconfig h) (namespace h) (ctx h) (config h) (restClient h)
    (clientset h) (dynamicClient h) (discoveryClient h) (informerFactory h)
    (informer h) o (locked h).

Definition withLock (b : bool) (h : Handler) : Handler :=
  mkHandler (kubeconfig h) (namespace h) (ctx h) (config h) (restClient h)
    (clientset h) (dynamicClient h) (discoveryClient h) (informerFactory h)
    (informer h) (Options h) b.

Definition withNamespace (ns : string) (h : Handler) : Handler :=
  mkHandler (kubeconfig h) ns (ctx h) (config h) (restClient h)
    (clientset h) (dynamicClient h) (discoveryClient h) (informerFactory h)
    (informer h) (Options h) (locked h).

(** [h.Lock()] and [h.Unlock()] *)
Definition Lock (h : Handler) : Run Handler :=
  if locked h then Blocks h else Done (withLock true h).

Definition Unlock (h : Handler) : Run Handler :=
  if locked h then Done (withLock false h) else Fatal h.

(** [time.Minute], in nanoseconds *)
Definition Minute : Z := 60000000000%Z.

Definition New (ctx : GoContext) (namespace kubeconfig : string)
  : Result Handler :=
  andThen (if nonempty kubeconfig
           then BuildConfigFromFlags "" kubeconfig
           else InClusterConfig) (fun config =>
  let config := mkRestConfig (Host config) "api" (Some ("apps", "v1"))
                  (Some "scheme.Codecs") in
  andThen (RESTClientFor config) (fun restClient =>
  andThen (NewForConfig config) (fun clientset =>
  andThen (NewDynamicForConfig config) (fun dynamicClient =>
  andThen (NewDiscoveryClientForConfig config) (fun discoveryClient =>
  let informerFactory := NewSharedInformerFactory clientset Minute in
  let namespace := if nonempty namespace then namespace
                   else metav1.NamespaceDefault in
  inr (mkHandler kubeconfig namespace ctx config restClient clientset
         dynamicClient discoveryClient informerFactory
         (DeploymentsInformer informerFactory) typed.zero false)))))).

Definition Namespace (h : Handler) : string := namespace h.

(** The copy gets its own options struct, into which six of the seven
    option structs are copied, and its own mutex. *)
Definition DeepCopy (h : Handler) : Handler :=
  let o := Options h in
  mkHandler (kubeconfig h) (namespace h) (ctx h) (config h) (restClient h)
    (clientset h) (dynamicClient h) (discoveryClient h) (informerFactory h)
    (informer h)
    (typed.mkOptions (typed.ListOptions o) (typed.GetOptions o)
       (typed.CreateOptions o) (typed.UpdateOptions o)
       (typed.DeleteOptions typed.zero) (typed.PatchOptions o)
       (typed.ApplyOptions o))
    false.

(** [h.Lock(); h.Unlock(); h.namespace = namespace] *)
Definition setNamespace (ns : string) (h : Handler) : Run Handler :=
  next (Lock h) (fun h =>
  next (Unlock h) (fun h =>
  Done (withNamespace ns h))).

Definition WithNamespace (ns : string) (h : Handler) : Run Handler :=
  setNamespace ns (DeepCopy h).

Definition WithDryRun (h : Handler) : Handler :=
  let handler := DeepCopy h in
  let o := Options handler in
  let all := [metav1.DryRunAll] in
  withOptions
    (typed.mkOptions (typed.ListOptions o) (typed.GetOptions o)
       (metav1.mkCreate all (metav1.CreateFieldManager (typed.CreateOptions o)))
       (metav1.mkUpdate all (metav1.UpdateFieldManager (typed.UpdateOptions o)))
       (metav1.mkDelete
          (metav1.GracePeriodSeconds (typed.DeleteOptions o))
          (metav1.PropagationPolicy (typed.DeleteOptions o)) all)
       (metav1.mkPatch all (metav1.PatchFieldManager (typed.PatchOptions o)))
       (metav1.mkApply all (metav1.ApplyFieldManager (typed.ApplyOptions o))))
    handler.

Definition setListOptions (l : metav1.ListOptions) (h : Handler) : Handler :=
  let o := Options h in
  withOptions
    (typed.mkOptions l (typed.GetOptions o) (typed.CreateOptions o)
       (typed.UpdateOptions o) (typed.DeleteOptions o) (typed.PatchOptions o)
       (typed.ApplyOptions o)) h.

Definition setDeleteOptions (d : metav1.DeleteOptions) (h : Handler)
  : Handler :=
  let o := Options h in
  withOptions
    (typed.mkOptions (typed.ListOptions o) (typed.GetOptions o)
       (typed.CreateOptions o) (typed.UpdateOptions o) d
       (typed.PatchOptions o) (typed.ApplyOptions o)) h.

(** [h.Lock(); defer h.Unlock(); ...] *)
Definition SetTimeout (timeout : Z) (h : Handler) : Run Handler :=
  next (Lock h) (fun h =>
  let l := typed.ListOptions (Options h) in
  let h := setListOptions
             (metav1.mkList (metav1.ListLabelSelector l) (Some timeout)
                (metav1.ListLimit l)) h in
  Unlock h).

Definition SetLimit (limit : Z) (h : Handler) : Run Handler :=
  next (Lock h) (fun h =>
  let l := typed.ListOptions (Options h) in
  let h := setListOptions
             (metav1.mkList (metav1.ListLabelSelector l)
                (metav1.ListTimeoutSeconds l) limit) h in
  Unlock h).

Definition SetForceDelete (force : bool) (h : Handler) : Run Handler :=
  next (Lock h) (fun h =>
  let d := typed.DeleteOptions (Options h) in
  let h := if force
           then setDeleteOptions
                  (metav1.mkDelete (Some 0%Z) (metav1.PropagationPolicy d)
                     (metav1.DeleteDryRun d)) h
           else setDeleteOptions (metav1.mkDelete None None []) h in
  Unlock h).

End Handler.
End DeploymentHandler.

(** [strings.ToLower]: byte by byte on a string of ASCII bytes, by the
    Unicode tables otherwise; the tables are a parameter. *)
Class GoStrings := {
  unicodeToLower : string -> string
}.

Definition isASCIIByte (c : Ascii.ascii) : bool :=
  Nat.ltb (Ascii.nat_of_ascii c) 128.

Fixpoint isASCII (s : string) : bool :=
  match s with
  | EmptyString => true
  | String c s' => isASCIIByte c && isASCII s'
  end.

Definition lowerByte (c : Ascii.ascii) : Ascii.ascii :=
  let n := Ascii.nat_of_ascii c in
  if Nat.leb 65 n && Nat.leb n 90 then Ascii.ascii_of_nat (n + 32) else c.

Fixpoint asciiToLower (s : string) : string :=
  match s with
  | EmptyString => EmptyString
  | String c s' => String (lowerByte c) (asciiToLower s')
  end.

Definition ToLower {gs : GoStrings} (s : string) : string :=
  if isASCII s then asciiToLower s else unicodeToLower s.

(** The informer factory with options of client-go, and the type of the
    list-options filter it takes. *)
Class InformerOptions {cg : ClientGo} := {
  TweakListOptionsFunc : Type;
  NewSharedInformerFactoryWithOptions :
    Clientset -> Z -> string -> option TweakListOptionsFunc -> InformerFactory
}.

(** *** cronjob/cronjob.go *)
Module CronJobHandler.
Section Handler.
Context {cg : ClientGo} {io : InformerOptions} {gs : GoStrings}.

Record Handler := mkHandler {
  ctx : GoContext;
  kubeconfig : string;
  namespace : string;
  config : RestConfig;
  httpClient : HTTPClient;
  restClient : RESTClient;
  clientset : Clientset;
  dynamicClient : DynamicClient;
  discoveryClient : DiscoveryClient;
  resyncPeriod : Z;
  informerScope : string;
  tweakListOptions : option TweakListOptionsFunc;
  informerFactory : InformerFactory;
  Options : typed.HandlerOptions;
  locked : bool   (* the sync.RWMutex [l], which is only write-locked *)
}.

Definition withOptions (o : typed.HandlerOptions) (h : Handler) : Handler :=
  mkHandler (ctx h) (kubeconfig h) (namespace h) (config h) (httpClient h)
    (restClient h) (clientset h) (dynamicClient h) (discoveryClient h)
    (resyncPeriod h) (informerScope h) (tweakListOptions h)
    (informerFactory h) o (locked h).

Definition withLock (b : bool) (h : Handler) : Handler :=
  mkHandler (ctx h) (kubeconfig h) (namespace h) (config h) (httpClient h)
    (restClient h) (clientset h) (dynamicClient h) (discoveryClient h)
    (resyncPeriod h) (informerScope h) (tweakListOptions h)
    (informerFactory h) (Options h) b.

Definition withNamespace (ns : string) (h : Handler) : Handler :=
  mkHandler (ctx h) (kubeconfig h) ns (config h) (httpClient h)
    (restClient h) (clientset h) (dynamicClient h) (discoveryClient h)
    (resyncPeriod h) (informerScope h) (tweakListOptions h)
    (informerFactory h) (Options h) (locked h).

(** The three fields the informer factory is built from, and the factory. *)
Definition withInformer (resync : Z) (scope : string)
  (tweak : option TweakListOptionsFunc) (factory : InformerFactory)
  (h : Handler) : Handler :=
  mkHandler (ctx h) (kubeconfig h) (namespace h) (config h) (httpClient h)
    (restClient h) (clientset h) (dynamicClient h) (discoveryClient h)
    resync scope tweak factory (Options h) (locked h).

(** [h.l.Lock()] and [h.l.Unlock()] *)
Definition Lock (h : Handler) : Run Handler :=
  if locked h then Blocks h else Done (withLock true h).

Definition Unlock (h : Handler) : Run Handler :=
  if locked h then Done (withLock false h) else Fatal h.

Definition setListOptions (l : metav1.ListOptions) (h : Handler) : Handler :=
  let o := Options h in
  withOptions
    (typed.mkOptions l (typed.GetOptions o) (typed.CreateOptions o)
       (typed.UpdateOptions o) (typed.DeleteOptions o) (typed.PatchOptions o)
       (typed.ApplyOptions o)) h.

Definition setDeleteOptions (d : metav1.DeleteOptions) (h : Handler)
  : Handler :=
  let o := Options h in
  withOptions
    (typed.mkOptions (typed.ListOptions o) (typed.GetOptions o)
       (typed.CreateOptions o) (typed.UpdateOptions o) d
       (typed.PatchOptions o) (typed.ApplyOptions o)) h.

Definition setPropagationPolicy (p : string) (h : Handler) : Handler :=
  let d := typed.DeleteOptions (Options h) in
  setDeleteOptions
    (metav1.mkDelete (metav1.GracePeriodSeconds d) (Some p)
       (metav1.DeleteDryRun d)) h.

(** The [switch strings.ToLower(policy)]: the first case that matches, the
    background policy by default. *)
Definition SetPropagationPolicy (policy : string) (h : Handler)
  : Run Handler :=
  next (Lock h) (fun h =>
  let p := ToLower policy in
  let h :=
    if String.eqb p (ToLower metav1.DeletePropagationBackground) then
      setPropagationPolicy metav1.DeletePropagationBackground h
    else if String.eqb p (ToLower metav1.DeletePropagationForeground) then
      setPropagationPolicy metav1.DeletePropagationForeground h
    else if String.eqb p (ToLower metav1.DeletePropagationOrphan) then
      setPropagationPolicy metav1.DeletePropagationOrphan h
    else setPropagationPolicy metav1.DeletePropagationBackground h in
  Unlock h).

(** The configuration is taken from the first of: the kubeconfig argument,
    the file the environment names, the file in the home directory, the
    pod environment. *)
Definition New (ctx : GoContext) (kubeconfig namespace : string)
  : Result (Run Handler) :=
  andThen (if nonempty kubeconfig then
             BuildConfigFromFlags "" kubeconfig
           else if nonempty (Getenv RecommendedConfigPathEnvVar) then
             BuildConfigFromFlags "" (Getenv RecommendedConfigPathEnvVar)
           else if nonempty RecommendedHomeFile then
             BuildConfigFromFlags "" RecommendedHomeFile
           else InClusterConfig) (fun config =>
  let config := mkRestConfig (Host config) "api" (Some ("batch", "v1"))
                  (Some "scheme.Codecs") in
  andThen (HTTPClientFor config) (fun httpClient =>
  andThen (RESTClientForConfigAndClient config httpClient) (fun restClient =>
  andThen (NewForConfigAndClient config httpClient) (fun clientset =>
  andThen (NewDynamicForConfigAndClient config httpClient)
    (fun dynamicClient =>
  andThen (NewDiscoveryClientForConfigAndClient config httpClient)
    (fun discoveryClient =>
  let informerFactory := NewSharedInformerFactory clientset 0%Z in
  let namespace := if nonempty namespace then namespace
                   else metav1.NamespaceDefault in
  inr (SetPropagationPolicy "background"
         (mkHandler ctx kubeconfig namespace config httpClient restClient
            clientset dynamicClient discoveryClient 0%Z "" None
            informerFactory typed.zero false)))))))).

(** The copy gets fresh options, into which six of the seven option
    structs are copied, a fresh lock, and zero values for the three fields
    the informer factory is built from. *)
Definition DeepCopy (h : Handler) : Run Handler :=
  let o := Options h in
  SetPropagationPolicy "background"
    (mkHandler (ctx h) (kubeconfig h) (namespace h) (config h)
       (httpClient h) (restClient h) (clientset h) (dynamicClient h)
       (discoveryClient h) 0%Z "" None (informerFactory h)
       (typed.mkOptions (typed.ListOptions o) (typed.GetOptions o)
          (typed.CreateOptions o) (typed.UpdateOptions o)
          (typed.DeleteOptions typed.zero) (typed.PatchOptions o)
          (typed.ApplyOptions o))
       false).

Definition resetNamespace (ns : string) (h : Handler) : Run Handler :=
  next (Lock h) (fun h => Unlock (withNamespace ns h)).

Definition WithNamespace (ns : string) (h : Handler) : Run Handler :=
  next (DeepCopy h) (resetNamespace ns).

Definition WithDryRun (h : Handler) : Run Handler :=
  next (DeepCopy h) (fun handler =>
  let o := Options handler in
  let all := [metav1.DryRunAll] in
  SetPropagationPolicy "background"
    (withOptions
       (typed.mkOptions (typed.ListOptions o) (typed.GetOptions o)
          (metav1.mkCreate all
             (metav1.CreateFieldManager (typed.CreateOptions o)))
          (metav1.mkUpdate all
             (metav1.UpdateFieldManager (typed.UpdateOptions o)))
          (metav1.mkDelete
             (metav1.GracePeriodSeconds (typed.DeleteOptions o))
             (metav1.PropagationPolicy (typed.DeleteOptions o)) all)
          (metav1.mkPatch all
             (metav1.PatchFieldManager (typed.PatchOptions o)))
          (metav1.mkApply all
             (metav1.ApplyFieldManager (typed.ApplyOptions o))))
       handler)).

Definition SetTimeout (timeout : Z) (h : Handler) : Run Handler :=
  next (Lock h) (fun h =>
  let l := typed.ListOptions (Options h) in
  Unlock (setListOptions
            (metav1.mkList (metav1.ListLabelSelector l) (Some timeout)
               (metav1.ListLimit l)) h)).

Definition SetLimit (limit : Z) (h : Handler) : Run Handler :=
  next (Lock h) (fun h =>
  let l := typed.ListOptions (Options h) in
  Unlock (setListOptions
            (metav1.mkList (metav1.ListLabelSelector l)
               (metav1.ListTimeoutSeconds l) limit) h)).

(** [h.l.Lock(); defer h.l.Lock(); if force { ... }]: the deferred call
    takes the lock a second time. *)
Definition SetForceDelete (force : bool) (h : Handler) : Run Handler :=
  next (Lock h) (fun h =>
  let d := typed.DeleteOptions (Options h) in
  let h := if force
           then setDeleteOptions
                  (metav1.mkDelete (Some 0%Z) (metav1.PropagationPolicy d)
                     (metav1.DeleteDryRun d)) h
           else h in
  Lock h).

End Handler.
End CronJobHandler.

(** *** job informer (unnamed/part_002) *)

(** Modelled from the spec: the Handler struct of package job is declared
    in a file that is not among the sources.  The fields its informer
    setters use (the lock, resyncPeriod, informerScope, tweakListOptions,
    informerFactory, clientset) are fields of the cronjob Handler, which is
    taken in its place. *)
Module JobInformer.
Section Handler.
Context {cg : ClientGo} {io : InformerOptions}.

Definition Handler := CronJobHandler.Handler.

(** [if len(h.informerScope) == 0 { h.informerScope = metav1.NamespaceAll }]
    and the factory built anew from the three fields. *)
Definition rebuild (resync : Z) (scope : string)
  (tweak : option TweakListOptionsFunc) (h : Handler) : Handler :=
  let scope := if nonempty scope then scope else metav1.NamespaceAll in
  CronJobHandler.withInformer resync scope tweak
    (NewSharedInformerFactoryWithOptions (CronJobHandler.clientset h)
       resync scope tweak) h.

Definition SetInformerFactoryResyncPeriod (resyncPeriod : Z) (h : Handler)
  : Run Handler :=
  next (CronJobHandler.Lock h) (fun h =>
  CronJobHandler.Unlock
    (rebuild resyncPeriod (CronJobHandler.informerScope h)
       (CronJobHandler.tweakListOptions h) h)).

Definition SetInformerFactoryNamespace (namespace : string) (h : Handler)
  : Run Handler :=
  next (CronJobHandler.Lock h) (fun h =>
  CronJobHandler.Unlock
    (rebuild (CronJobHandler.resyncPeriod h) namespace
       (CronJobHandler.tweakListOptions h) h)).

Definition SetInformerFactoryTweakListOptions
  (tweakListOptions : option TweakListOptionsFunc) (h : Handler)
  : Run Handler :=
  next (CronJobHandler.Lock h) (fun h =>
  CronJobHandler.Unlock
    (rebuild (CronJobHandler.resyncPeriod h)
       (CronJobHandler.informerScope h) tweakListOptions h)).

Definition InformerFactory_ (h : Handler) : InformerFactory :=
  CronJobHandler.informerFactory h.

End Handler.
End JobInformer.

(** ** Vocabulary for the handler constructors and setters *)

(** The kubeconfig file cronjob's [New] reads: the first that is named of
    the argument, the environment and the home directory; [None] when none
    is named and the pod environment is asked. *)
Definition chosenFile {cg : ClientGo} (kubeconfig : string) : option string :=
  if nonempty kubeconfig then Some kubeconfig
  else if nonempty (Getenv RecommendedConfigPathEnvVar)
       then Some (Getenv RecommendedConfigPathEnvVar)
  else if nonempty RecommendedHomeFile then Some RecommendedHomeFile
  else None.

(** The namespace a handler is made for. *)
Definition namespaceOrDefault (namespace : string) : string :=
  if nonempty namespace then namespace else "default".

(** Two option structs that agree on all but the delete options. *)
Definition sameButDelete (a b : typed.HandlerOptions) : Prop :=
  typed.ListOptions a = typed.ListOptions b /\
  typed.GetOptions a = typed.GetOptions b /\
  typed.CreateOptions a = typed.CreateOptions b /\
  typed.UpdateOptions a = typed.UpdateOptions b /\
  typed.PatchOptions a = typed.PatchOptions b /\
  typed.ApplyOptions a = typed.ApplyOptions b.

(** The dry-run settings of the five verbs that write. *)
Definition dryRuns (o : typed.HandlerOptions) : list (list string) :=
  [metav1.CreateDryRun (typed.CreateOptions o);
   metav1.UpdateDryRun (typed.UpdateOptions o);
   metav1.DeleteDryRun (typed.DeleteOptions o);
   metav1.PatchDryRun (typed.PatchOptions o);
   metav1.ApplyDryRun (typed.ApplyOptions o)].

(** One call of an informer setter of package job. *)
Inductive InformerSetter {cg : ClientGo} {io : InformerOptions} :=
| SetResyncPeriod (resyncPeriod : Z)
| SetNamespace (namespace : string)
| SetTweakListOptions (tweakListOptions : option TweakListOptionsFunc).

Definition callSetter {cg : ClientGo} {io : InformerOptions}
  (s : InformerSetter) : JobInformer.Handler -> Run JobInformer.Handler :=
  match s with
  | SetResyncPeriod r => JobInformer.SetInformerFactoryResyncPeriod r
  | SetNamespace ns => JobInformer.SetInformerFactoryNamespace ns
  | SetTweakListOptions t => JobInformer.SetInformerFactoryTweakListOptions t
  end.

(** Setter calls one after the other. *)
Fixpoint callSetters {cg : ClientGo} {io : InformerOptions}
  (ss : list InformerSetter) (h : JobInformer.Handler)
  : Run JobInformer.Handler :=
  match ss with
  | [] => Done h
  | s :: ss' => next (callSetter s h) (callSetters ss')
  end.

(** The value each of the three fields has after a list of setter calls:
    the last one given, or the one it had. *)
Fixpoint lastResync {cg : ClientGo} {io : InformerOptions}
  (ss : list InformerSetter) (r : Z) : Z :=
  match ss with
  | [] => r
  | SetResyncPeriod r' :: ss' => lastResync ss' r'
  | _ :: ss' => lastResync ss' r
  end.

Fixpoint lastScope {cg : ClientGo} {io : InformerOptions}
  (ss : list InformerSetter) (ns : string) : string :=
  match ss with
  | [] => ns
  | SetNamespace ns' :: ss' => lastScope ss' ns'
  | _ :: ss' => lastScope ss' ns
  end.

Fixpoint lastTweak {cg : ClientGo} {io : InformerOptions}
  (ss : list InformerSetter) (t : option TweakListOptionsFunc)
  : option TweakListOptionsFunc :=
  match ss with
  | [] => t
  | SetTweakListOptions t' :: ss' => lastTweak ss' t'
  | _ :: ss' => lastTweak ss' t
  end.

(** ** A concrete platform

    A machine with one kubeconfig file and a home directory, none of whose
    client constructors fails. *)
Module Platform.

Definition build (masterUrl path : string) : Result RestConfig :=
  if String.eqb path "/etc/kube.conf"
  then inr (mkRestConfig "https://10.0.0.1:6443" "" None None)
  else inl (ErrExternal "stat: no such file or directory").

#[export] Instance cg : ClientGo := {|
  GoContext := unit;
  HTTPClient := string;
  RESTClient := string;
  Clientset := string;
  DynamicClient := string;
  DiscoveryClient := string;
  InformerFactory := string * Z * string * bool;
  Informer := string;
  BuildConfigFromFlags := build;
  InClusterConfig := inr (mkRestConfig "https://kubernetes.default.svc" ""
                            None None);
  Getenv := fun _ => "";
  RecommendedHomeFile := "/root/.kube/config";
  HTTPClientFor := fun c => inr (Host c);
  RESTClientFor := fun c => inr (Host c);
  RESTClientForConfigAndClient := fun c _ => inr (Host c);
  NewForConfig := fun c => inr (Host c);
  NewForConfigAndClient := fun c _ => inr (Host c);
  NewDynamicForConfig := fun c => inr (Host c);
  NewDynamicForConfigAndClient := fun c _ => inr (Host c);
  NewDiscoveryClientForConfig := fun c => inr (Host c);
  NewDiscoveryClientForConfigAndClient := fun c _ => inr (Host c);
  NewSharedInformerFactory := fun cs r => (cs, r, "", false);
  DeploymentsInformer := fun f => "deployments"
|}.

#[export] Instance io : InformerOptions (cg := cg) := {|
  TweakListOptionsFunc := string;
  NewSharedInformerFactoryWithOptions := fun cs r ns t =>
    (cs, r, ns, match t with Some _ => true | None => false end)
|}.

#[export] Instance gs : GoStrings := {|
  unicodeToLower := fun s => s
|}.

Definition options : typed.HandlerOptions :=
  typed.mkOptions (metav1.mkList "app=web" (Some 30%Z) 500%Z)
    (metav1.mkGet "7") (metav1.mkCreate [] "kubectl")
    (metav1.mkUpdate [] "kubectl")
    (metav1.mkDelete (Some 0%Z) (Some "Orphan") ["All"])
    (metav1.mkPatch [] "kubectl") (metav1.mkApply [] "kubectl").

Definition deploy : DeploymentHandler.Handler (cg := cg) :=
  DeploymentHandler.mkHandler (cg := cg) "/etc/kube.conf" "prod" tt
    (mkRestConfig "https://10.0.0.1:6443" "api" (Some ("apps", "v1"))
       (Some "scheme.Codecs"))
    "rest" "clientset" "dynamic" "discovery" ("clientset", 0%Z, "", false)
    "deployments" options false.

Definition cron : CronJobHandler.Handler (cg := cg) (io := io) :=
  CronJobHandler.mkHandler (cg := cg) (io := io) tt "/etc/kube.conf" "prod"
    (mkRestConfig "https://10.0.0.1:6443" "api" (Some ("batch", "v1"))
       (Some "scheme.Codecs"))
    "http" "rest" "clientset" "dynamic" "discovery" 0%Z "" None
    ("clientset", 0%Z, "", false) options false.

End Platform.

(** * Properties *)

Unset Implicit Arguments.

(** ** Basic facts about the vocabulary *)

Lemma bytes_eqb_eq (a b : bytes) : bytes_eqb a b = true <-> a = b.
Proof.
  revert b; induction a as [|x a IH]; destruct b as [|y b]; simpl;
    try (split; [discriminate | discriminate]); try tauto.
  rewrite andb_true_iff, IH. split.
  - intros [Hxy Hab]. apply Byte.byte_dec_bl in Hxy. congruence.
  - intros Heq. injection Heq as -> ->. split; [apply Byte.byte_dec_lb|]; reflexivity.
Qed.

Lemma emptyPatch_true (pd : bytes) :
  emptyPatch pd = true <-> pd = [] \/ pd = bytes_of "{}".
Proof.
  unfold emptyPatch. rewrite orb_true_iff, bytes_eqb_eq, Nat.eqb_eq.
  split; (intros [H|H]; [left | right; exact H]).
  - destruct pd; [reflexivity | discriminate].
  - subst; reflexivity.
Qed.

Lemma selectedPatchType_first (opts : list PatchType) :
  selectedPatchType opts =
    if firstOptionIs JSONPatchType opts then JSONPatchType
    else if firstOptionIs MergePatchType opts then MergePatchType
    else StrategicMergePatchType.
Proof. destruct opts as [|[| | |s] opts]; reflexivity. Qed.

Lemma selectedDiffPatchType_first (opts : list PatchType) :
  selectedDiffPatchType opts =
    if firstOptionIs MergePatchType opts then MergePatchType
    else StrategicMergePatchType.
Proof. destruct opts as [|[| | |s] opts]; reflexivity. Qed.

Lemma resolveNamespace_spec (o h : string) :
  (o <> "" -> resolveNamespace o h = o) /\
  (o = "" -> resolveNamespace o h = h).
Proof.
  unfold resolveNamespace. destruct o; simpl; split; intros H;
    congruence.
Qed.

(** Unfolding the monad down to pairs. *)
Ltac run :=
  unfold requestErr, bind, ret, fail, lift, getHandler, modifyHandler,
    request in *; simpl in *.

(** A request appends exactly itself to the log. *)
Lemma request_calls {sdk : SDK} {H : Type} (c : APICall) (w : World H) :
  calls (snd (request c w)) = (calls w ++ [c])%list /\
  handler (snd (request c w)) = handler w /\
  fst (request c w) = fst (serve c (cluster w)).
Proof. run. destruct (serve c (cluster w)); simpl; auto. Qed.

Lemma request_run {sdk : SDK} {H : Type} (c : APICall) (w : World H) :
  request c w = (fst (serve c (cluster w)),
                 mkWorld (handler w) (calls w ++ [c])
                   (snd (serve c (cluster w)))).
Proof. unfold request. destruct (serve c (cluster w)); reflexivity. Qed.

Lemma bind_lift_inr {sdk : SDK} {H A B : Type} (a : A) (k : A -> M H B)
  (w : World H) : (x <- lift (inr a) ;; k x) w = k a w.
Proof. reflexivity. Qed.


(** ** Patch *)

(** The three raw-data paths of clusterrole send the type they are named
    after; the strategic and merge paths send nothing on an empty patch. *)
Lemma ClusterRole_raw_paths {sdk : SDK} (original : TypedObject)
  (pd : bytes) (w : World Handler) :
  let sent pt := CallPatch KClusterRole None (Name (Meta original)) pt pd
                   (PatchOptions (Options (handler w))) in
  ClusterRole.jsonPatch original pd w = request (sent JSONPatchType) w /\
  ClusterRole.jsonMergePatch original pd w =
    (if emptyPatch pd then (inr original, w)
     else request (sent MergePatchType) w) /\
  ClusterRole.strategicMergePatch original pd w =
    (if emptyPatch pd then (inr original, w)
     else request (sent StrategicMergePatchType) w).
Proof.
  unfold ClusterRole.jsonPatch, ClusterRole.jsonMergePatch,
    ClusterRole.strategicMergePatch.
  destruct (emptyPatch pd); run; auto.
Qed.

(** In persistentvolume the merge path sends the strategic type. *)
Lemma PersistentVolume_raw_paths {sdk : SDK} (original : TypedObject)
  (pd : bytes) (w : World Handler) :
  let sent pt := CallPatch KPersistentVolume None (Name (Meta original)) pt pd
                   (PatchOptions (Options (handler w))) in
  PersistentVolume.jsonPatch original pd w = request (sent JSONPatchType) w /\
  PersistentVolume.jsonMergePatch original pd w =
    (if emptyPatch pd then (inr original, w)
     else request (sent StrategicMergePatchType) w) /\
  PersistentVolume.strategicMergePatch original pd w =
    (if emptyPatch pd then (inr original, w)
     else request (sent StrategicMergePatchType) w).
Proof.
  unfold PersistentVolume.jsonPatch, PersistentVolume.jsonMergePatch,
    PersistentVolume.strategicMergePatch.
  destruct (emptyPatch pd); run; auto.
Qed.

(** Raw bytes through clusterrole Patch: the data converted to JSON goes
    out under the selected type. *)
Lemma ClusterRole_Patch_bytes {sdk : SDK} (original : TypedObject)
  (val pd : bytes) (opts : list PatchType) (w : World Handler) :
  yaml_ToJSON val = inr pd ->
  emptyPatch pd = false ->
  ClusterRole.Patch original (VBytes val) opts w =
    request (CallPatch KClusterRole None (Name (Meta original))
               (selectedPatchType opts) pd
               (PatchOptions (Options (handler w)))) w.
Proof.
  intros Hy He. rewrite selectedPatchType_first.
  destruct (ClusterRole_raw_paths original pd w) as (Hj & Hm & Hs).
  rewrite He in Hm, Hs.
  unfold ClusterRole.Patch. unfold bind at 1, lift at 1. rewrite Hy.
  destruct (firstOptionIs JSONPatchType opts); [exact Hj|].
  destruct (firstOptionIs MergePatchType opts); [exact Hm | exact Hs].
Qed.

(** A file path is read and then treated as raw bytes, in both packages. *)
Lemma Patch_file_as_bytes {sdk : SDK} (original : TypedObject)
  (path : string) (data : bytes) (opts : list PatchType) (w : World Handler) :
  ReadFile path = inr data ->
  PersistentVolume.Patch original (VString path) opts w =
    PersistentVolume.Patch original (VBytes data) opts w /\
  ClusterRole.Patch original (VString path) opts w =
    ClusterRole.Patch original (VBytes data) opts w.
Proof.
  intros Hr. unfold PersistentVolume.Patch, ClusterRole.Patch.
  unfold bind at 1 3, lift at 1 3. rewrite Hr. split; reflexivity.
Qed.

(** Raw bytes through persistentvolume Patch with MergePatchType first. *)
Lemma PersistentVolume_Patch_bytes_merge {sdk : SDK} (original : TypedObject)
  (val pd : bytes) (rest : list PatchType) (w : World Handler) :
  yaml_ToJSON val = inr pd ->
  emptyPatch pd = false ->
  PersistentVolume.Patch original (VBytes val) (MergePatchType :: rest) w =
    request (CallPatch KPersistentVolume None (Name (Meta original))
               StrategicMergePatchType pd
               (PatchOptions (Options (handler w)))) w.
Proof.
  intros Hy He.
  destruct (PersistentVolume_raw_paths original pd w) as (_ & Hm & _).
  rewrite He in Hm.
  unfold PersistentVolume.Patch. unfold bind at 1, lift at 1. rewrite Hy.
  simpl. exact Hm.
Qed.

(** C1. A Patch call on raw bytes with MergePatchType as first option is to
    go out under the JSON-merge-patch type.  On the bytes [{x}] for the
    object "web", clusterrole sends MergePatchType and persistentvolume
    sends StrategicMergePatchType instead: its jsonMergePatch passes the
    wrong constant. *)
Theorem C1_persistentvolume_merge_patch_sends_strategic :
  selectedPatchType [MergePatchType] = MergePatchType /\
  map patchTypeOf
    (calls (snd (ClusterRole.Patch Sample.web (VBytes (bytes_of "{x}"))
                   [MergePatchType] Sample.w0)))
  = [Some MergePatchType] /\
  map patchTypeOf
    (calls (snd (PersistentVolume.Patch Sample.web (VBytes (bytes_of "{x}"))
                   [MergePatchType] Sample.w0)))
  = [Some StrategicMergePatchType] /\
  map patchTypeOf
    (calls (snd (PersistentVolume.Patch Sample.web (VString "patch.yaml")
                   [MergePatchType] Sample.w0)))
  = [Some StrategicMergePatchType].
Proof.
  split; [reflexivity|].
  split.
  - rewrite (ClusterRole_Patch_bytes (sdk := Sample.sdk) Sample.web
               _ (bytes_of "{x}") _ _ eq_refl eq_refl).
    reflexivity.
  - rewrite (proj1 (Patch_file_as_bytes (sdk := Sample.sdk) Sample.web
               "patch.yaml" _ [MergePatchType] Sample.w0 eq_refl)).
    rewrite (PersistentVolume_Patch_bytes_merge (sdk := Sample.sdk) Sample.web
               _ (bytes_of "{x}") _ _ eq_refl eq_refl).
    split; reflexivity.
Qed.

(** diffMergePatch in both packages: the diff of the two JSON forms goes
    out under the type selected for typed arguments, unless it is empty. *)
Lemma diffMergePatch_spec {sdk : SDK} (p : PatchPackage)
  (original modified : TypedObject) (opts : list PatchType)
  (w : World Handler) (pd : bytes) :
  twoWayDiff (kindOf p) original modified = inr pd ->
  match p with
  | persistentvolume => PersistentVolume.diffMergePatch
  | clusterrole => ClusterRole.diffMergePatch
  end original modified opts w =
    if emptyPatch pd then (inr original, w)
    else request (CallPatch (kindOf p) None (Name (Meta original))
                    (selectedDiffPatchType opts) pd
                    (PatchOptions (Options (handler w)))) w.
Proof.
  unfold twoWayDiff. rewrite selectedDiffPatchType_first.
  destruct p; simpl; intros Hd;
    unfold PersistentVolume.diffMergePatch, ClusterRole.diffMergePatch;
    unfold bind at 1, lift at 1;
    (destruct (json_Marshal _ original) as [e|oj]; [discriminate|]);
    unfold bind at 1, lift at 1;
    (destruct (json_Marshal _ modified) as [e|mj]; [discriminate|]);
    unfold bind at 1, lift at 1; rewrite Hd;
    destruct (emptyPatch pd); [reflexivity | | reflexivity | ];
    unfold bind at 1, getHandler at 1;
    destruct (firstOptionIs MergePatchType opts); reflexivity.
Qed.

(** A typed patch argument reaches diffMergePatch with the object behind
    it. *)
Lemma Patch_typed {sdk : SDK} (p : PatchPackage)
  (original modified : TypedObject) (patch : value) (opts : list PatchType)
  (w : World Handler) :
  typedModified (kindOf p) patch = Some (inr modified) ->
  PatchOf p original patch opts w =
    match p with
    | persistentvolume => PersistentVolume.diffMergePatch
    | clusterrole => ClusterRole.diffMergePatch
    end original modified opts w.
Proof.
  destruct p; simpl; unfold typedModified;
    destruct patch as [s|b|k o|k o|u|u|u|t|t]; try discriminate;
    try (destruct k; simpl; try discriminate; intros [= ->]; reflexivity);
    intros [= Hu]; unfold PersistentVolume.Patch, ClusterRole.Patch;
    unfold bind at 1, lift at 1; rewrite Hu; reflexivity.
Qed.

(** C5. For a typed modified object (pointer, value, unstructured or generic
    map) whose two-way strategic merge patch against the original is [pd],
    not empty, Patch sends exactly [pd], under MergePatchType when that is
    the first patch option and under StrategicMergePatchType otherwise; in
    persistentvolume and in clusterrole alike. *)
Theorem C5_typed_patch_sends_two_way_diff {sdk : SDK} (p : PatchPackage)
  (original modified : TypedObject) (patch : value) (opts : list PatchType)
  (w : World Handler) (pd : bytes) :
  typedModified (kindOf p) patch = Some (inr modified) ->
  twoWayDiff (kindOf p) original modified = inr pd ->
  emptyPatch pd = false ->
  PatchOf p original patch opts w =
    request (CallPatch (kindOf p) None (Name (Meta original))
               (if firstOptionIs MergePatchType opts then MergePatchType
                else StrategicMergePatchType)
               pd (PatchOptions (Options (handler w)))) w.
Proof.
  intros Hm Hd He.
  rewrite (Patch_typed p original modified patch opts w Hm).
  rewrite (diffMergePatch_spec p original modified opts w pd Hd), He.
  rewrite selectedDiffPatchType_first. reflexivity.
Qed.

Lemma C5_witness :
  PatchOf persistentvolume Sample.web (VStruct KPersistentVolume Sample.bare)
    [MergePatchType; JSONPatchType] Sample.w0 =
  request (CallPatch KPersistentVolume None "web" MergePatchType
             (bytes_of "webweb") []) Sample.w0.
Proof.
  exact (C5_typed_patch_sends_two_way_diff persistentvolume Sample.web
           Sample.bare (VStruct KPersistentVolume Sample.bare)
           [MergePatchType; JSONPatchType] Sample.w0 (bytes_of "webweb")
           eq_refl eq_refl eq_refl).
Defined.

(** Raw bytes: outside the JSON-patch path an empty patch sends nothing. *)
Lemma Patch_bytes_empty {sdk : SDK} (p : PatchPackage)
  (original : TypedObject) (val pd : bytes) (opts : list PatchType)
  (w : World Handler) :
  firstOptionIs JSONPatchType opts = false ->
  yaml_ToJSON val = inr pd ->
  emptyPatch pd = true ->
  PatchOf p original (VBytes val) opts w = (inr original, w).
Proof.
  intros Hj Hy He.
  destruct (PersistentVolume_raw_paths original pd w) as (_ & Hm & Hs).
  destruct (ClusterRole_raw_paths original pd w) as (_ & Hm' & Hs').
  rewrite He in Hm, Hs, Hm', Hs'.
  destruct p; simpl; unfold PersistentVolume.Patch, ClusterRole.Patch;
    unfold bind at 1, lift at 1; rewrite Hy, Hj;
    destruct (firstOptionIs MergePatchType opts); assumption.
Qed.

(** C10. On the strategic-merge, JSON-merge and diff-based paths a patch
    that is empty or the literal [{}] makes Patch return the original
    object with no request sent and nothing changed; and when the differ of
    the SDK answers [{}] on the JSON form of [o] against itself, Patch(o, o)
    returns [o] in that way, for [o] passed by pointer or by value. *)
Theorem C10_empty_patch_returns_original {sdk : SDK} (p : PatchPackage)
  (original : TypedObject) (patch : value) (opts : list PatchType)
  (w : World Handler) (pd j : bytes) :
  (mergePathData (kindOf p) original patch opts = Some (inr pd) ->
   pd = [] \/ pd = bytes_of "{}" ->
   PatchOf p original patch opts w = (inr original, w)) /\
  (json_Marshal (kindOf p) original = inr j ->
   CreateTwoWayMergePatch j j (kindOf p) = inr (bytes_of "{}") ->
   PatchOf p original (VPtr (kindOf p) original) opts w = (inr original, w) /\
   PatchOf p original (VStruct (kindOf p) original) opts w = (inr original, w)).
Proof.
  assert (Hdiff : forall patch' modified,
            typedModified (kindOf p) patch' = Some (inr modified) ->
            forall pd', twoWayDiff (kindOf p) original modified = inr pd' ->
            emptyPatch pd' = true ->
            PatchOf p original patch' opts w = (inr original, w)).
  { intros patch' modified Hm pd' Hd He.
    rewrite (Patch_typed p original modified patch' opts w Hm).
    rewrite (diffMergePatch_spec p original modified opts w pd' Hd), He.
    reflexivity. }
  split.
  - intros Hdata Hpd. apply emptyPatch_true in Hpd.
    unfold mergePathData in Hdata.
    destruct patch as [s|b|k o|k o|u|u|u|t|t];
      try (destruct (typedModified (kindOf p) _) as [[e|m]|] eqn:Hm;
           [discriminate | | discriminate];
           injection Hdata as Hd; exact (Hdiff _ m Hm pd Hd Hpd)).
    + destruct (firstOptionIs JSONPatchType opts) eqn:Hj; [discriminate|].
      simpl in Hdata. destruct (ReadFile s) as [e|data] eqn:Hr;
        injection Hdata as Hy; [discriminate|].
      destruct (Patch_file_as_bytes original s data opts w Hr) as [Hpv Hcr].
      transitivity (PatchOf p original (VBytes data) opts w).
      * destruct p; assumption.
      * exact (Patch_bytes_empty p original data pd opts w Hj Hy Hpd).
    + destruct (firstOptionIs JSONPatchType opts) eqn:Hj; [discriminate|].
      simpl in Hdata. injection Hdata as Hy.
      exact (Patch_bytes_empty p original b pd opts w Hj Hy Hpd).
  - intros Hj Hd.
    assert (Hself : twoWayDiff (kindOf p) original original
                    = inr (bytes_of "{}")).
    { unfold twoWayDiff. rewrite Hj. exact Hd. }
    split; refine (Hdiff _ original _ _ Hself eq_refl);
      destruct p; reflexivity.
Qed.

Lemma C10_witness :
  PatchOf clusterrole Sample.web (VString "empty.yaml") [MergePatchType]
    Sample.w0 = (inr Sample.web, Sample.w0) /\
  PatchOf persistentvolume Sample.web (VPtr KPersistentVolume Sample.web) []
    Sample.w0 = (inr Sample.web, Sample.w0).
Proof.
  split.
  - apply (proj1 (C10_empty_patch_returns_original clusterrole Sample.web
                    (VString "empty.yaml") [MergePatchType] Sample.w0
                    (bytes_of "{}") [])).
    + reflexivity.
    + right; reflexivity.
  - apply (proj2 (C10_empty_patch_returns_original persistentvolume
                    Sample.web (VOther "") [] Sample.w0 []
                    (bytes_of "webprodweb"))).
    + reflexivity.
    + reflexivity.
Defined.

(** ** String arguments *)




(** ** Namespace resolution *)

Lemma namespaceFor_resolve (o h : string) :
  namespaceFor o h (Some (resolveNamespace o h)).
Proof.
  destruct (resolveNamespace_spec o h) as [Hn He].
  split; intros Ho; f_equal; auto.
Qed.

(** A single request that targets the resolved namespace. *)
Lemma sendsOneTo_request {sdk : SDK} {H R : Type} (m : M H R) (w : World H)
  (c : APICall) (o h : string) :
  calls (snd (m w)) = (calls w ++ [c])%list ->
  targetNamespace c = Some (resolveNamespace o h) ->
  sendsOneTo m w o h.
Proof.
  intros Hc Ht. exists c. split; [exact Hc|]. rewrite Ht.
  apply namespaceFor_resolve.
Qed.

(** C6. Every namespaced operation on a resource object sends its one
    request to the namespace recorded in the object's metadata when that is
    not empty and to the handler's namespace otherwise: the typed update,
    create, delete and get, and the dynamic delete of an object whose kind
    the REST mapper reports as namespaced. *)
Theorem C6_request_targets_object_namespace_or_handlers
  {sdk : SDK} {disc : Discovery} (o : TypedObject) (w : World Handler)
  (u : UMap) (dw : World Dynamic.Handler)
  (gvr : schema.GroupVersionResource) (gvk : schema.GroupVersionKind) :
  let objNs := Namespace (Meta o) in
  let hNs := namespace (handler w) in
  sendsOneTo (Deployment.updateDeployment o) w objNs hNs /\
  sendsOneTo (DaemonSet.updateDaemonset o) w objNs hNs /\
  sendsOneTo (PersistentVolumeClaim.createPVC o) w objNs hNs /\
  sendsOneTo (RoleBinding.deleteRolebinding o) w objNs hNs /\
  sendsOneTo (ConfigMap.getConfigmap o) w objNs hNs /\
  (FindGVR u = inr gvr -> FindGVK u = inr gvk ->
   IsNamespaced gvk = inr true ->
   sendsOneTo (Dynamic.deleteUnstructured u) dw (GetNamespace u)
     (Dynamic.namespace (handler dw))).
Proof.
  intros objNs hNs. repeat split.
  - eapply sendsOneTo_request;
      [unfold Deployment.updateDeployment; run;
       destruct (serve _ _); reflexivity | reflexivity].
  - eapply sendsOneTo_request;
      [unfold DaemonSet.updateDaemonset; run;
       destruct (serve _ _); reflexivity | reflexivity].
  - eapply sendsOneTo_request;
      [unfold PersistentVolumeClaim.createPVC; run;
       destruct (serve _ _); reflexivity | reflexivity].
  - eapply sendsOneTo_request;
      [unfold RoleBinding.deleteRolebinding; run;
       destruct (serve _ _) as [[e|r] cl]; reflexivity | reflexivity].
  - eapply sendsOneTo_request;
      [unfold ConfigMap.getConfigmap; run;
       destruct (serve _ _); reflexivity | reflexivity].
  - intros Hr Hk Hn.
    assert (Hrun : Dynamic.deleteUnstructured u dw =
              (_ <- Dynamic.backgroundForJobs gvk ;;
               h <- getHandler ;;
               requestErr (CallDynamicDelete gvr
                             (Some (resolveNamespace (GetNamespace u)
                                      (Dynamic.namespace h)))
                             (GetName u)
                             (DeleteOptions (Dynamic.Options h)))) dw).
    { unfold Dynamic.deleteUnstructured.
      unfold bind at 1, lift at 1. rewrite Hr.
      unfold bind at 1, lift at 1. rewrite Hk.
      unfold bind at 1, lift at 1. rewrite Hn. reflexivity. }
    unfold sendsOneTo. rewrite Hrun. unfold Dynamic.backgroundForJobs.
    destruct (String.eqb (schema.Kind gvk) KindJob
              || String.eqb (schema.Kind gvk) KindCronJob);
      run; destruct (serve _ _) as [[e|r] cl]; simpl;
      (eexists; split; [reflexivity | apply namespaceFor_resolve]).
Qed.

Lemma C6_witness :
  sendsOneTo (Dynamic.deleteUnstructured (disc := Sample.disc) Sample.job)
    Sample.dw0 "batch" "default" /\
  sendsOneTo (Deployment.updateDeployment Sample.bare) Sample.w0 ""
    "default".
Proof.
  pose proof (C6_request_targets_object_namespace_or_handlers (sdk := Sample.sdk)
                (disc := Sample.disc) Sample.bare
                Sample.w0 Sample.job Sample.dw0
                (schema.mkGVR "batch" "v1" "jobs")
                (schema.mkGVK "batch" "v1" "Job")) as H.
  split.
  - apply H; reflexivity.
  - apply H.
Defined.

(** ** Arguments of an undocumented type *)

(** C7. An argument of none of the documented input shapes makes every
    operation return its sentinel type error, with the world as it was: no
    request in the log, the handler and the cluster untouched. *)
Theorem C7_undocumented_type_returns_sentinel
  {sdk : SDK} {disc : Discovery} (v : value) (original : TypedObject)
  (opts : list PatchType) (w : World Handler) (dw : World Dynamic.Handler) :
  (documented KDeployment v = false ->
   Deployment.Update v w = (inl ERR_TYPE_UPDATE, w)) /\
  (documented KDaemonSet v = false ->
   DaemonSet.Update v w = (inl ERR_TYPE_UPDATE, w)) /\
  (documented KPersistentVolumeClaim v = false ->
   PersistentVolumeClaim.Create v w = (inl ERR_TYPE_CREATE, w)) /\
  (documented KNode v = false ->
   Node.Delete v w = (inl ERR_TYPE_DELETE, w)) /\
  (documentedU KRoleBinding v = false ->
   RoleBinding.Delete v w = (inl ERR_TYPE_DELETE, w)) /\
  (documented KConfigMap v = false ->
   ConfigMap.Get v w = (inl ERR_TYPE_GET, w)) /\
  (documentedU KPersistentVolume v = false ->
   PersistentVolume.Patch original v opts w = (inl ErrInvalidPathType, w)) /\
  (documentedU KClusterRole v = false ->
   ClusterRole.Patch original v opts w = (inl ErrInvalidPathType, w)) /\
  (documentedDynamic v = false ->
   Dynamic.Delete v dw = (inl ErrInvalidDeleteType, dw)).
Proof.
  repeat split; intros Hdoc;
    destruct v as [s|b|k o|k o|u|u|u|t|t]; simpl in Hdoc;
    try discriminate; try reflexivity;
    destruct k; simpl in Hdoc; try discriminate; reflexivity.
Qed.

Lemma C7_witness :
  Deployment.Update (VStruct KNode Sample.web) Sample.w0
    = (inl ERR_TYPE_UPDATE, Sample.w0) /\
  PersistentVolume.Patch Sample.web (VOther "int") [] Sample.w0
    = (inl ErrInvalidPathType, Sample.w0).
Proof.
  split.
  - apply (C7_undocumented_type_returns_sentinel (sdk := Sample.sdk)
             (disc := Sample.disc) (VStruct KNode Sample.web) Sample.web []
             Sample.w0 Sample.dw0).
    reflexivity.
  - apply (C7_undocumented_type_returns_sentinel (sdk := Sample.sdk)
             (disc := Sample.disc) (VOther "int") Sample.web []
             Sample.w0 Sample.dw0).
    reflexivity.
Defined.

(** ** Apply *)



(** ** resourceVersion and uid *)

(** The three senders: the request carries the object with resourceVersion
    and uid emptied and everything else as given. *)
Lemma senders_clear {sdk : SDK} (o : TypedObject) (w : World Handler) :
  calls (snd (Deployment.updateDeployment o w)) =
    (calls w ++ [CallUpdate KDeployment
                   (Some (resolveNamespace (Namespace (Meta o))
                            (namespace (handler w))))
                   (cleared o) (UpdateOptions (Options (handler w)))])%list /\
  calls (snd (DaemonSet.updateDaemonset o w)) =
    (calls w ++ [CallUpdate KDaemonSet
                   (Some (resolveNamespace (Namespace (Meta o))
                            (namespace (handler w))))
                   (cleared o) (UpdateOptions (Options (handler w)))])%list /\
  calls (snd (PersistentVolumeClaim.createPVC o w)) =
    (calls w ++ [CallCreate KPersistentVolumeClaim
                   (Some (resolveNamespace (Namespace (Meta o))
                            (namespace (handler w))))
                   (cleared o) (CreateOptions (Options (handler w)))])%list.
Proof.
  unfold Deployment.updateDeployment, DaemonSet.updateDaemonset,
    PersistentVolumeClaim.createPVC. run.
  repeat split; destruct (serve _ _); reflexivity.
Qed.

(** Whatever its argument, each of the three operations either stops
    before any request, leaving the world as it was, or runs its sender on
    some object. *)
Lemma operations_reach_sender {sdk : SDK} (v : value) (w : World Handler) :
  (snd (Deployment.Update v w) = w \/
   exists o, Deployment.Update v w = Deployment.updateDeployment o w) /\
  (snd (DaemonSet.Update v w) = w \/
   exists o, DaemonSet.Update v w = DaemonSet.updateDaemonset o w) /\
  (snd (PersistentVolumeClaim.Create v w) = w \/
   exists o, PersistentVolumeClaim.Create v w
             = PersistentVolumeClaim.createPVC o w).
Proof.
  assert (Hbytes : forall b,
    (snd (Deployment.UpdateFromBytes b w) = w \/
     exists o, Deployment.UpdateFromBytes b w
               = Deployment.updateDeployment o w) /\
    (snd (DaemonSet.UpdateFromBytes b w) = w \/
     exists o, DaemonSet.UpdateFromBytes b w = DaemonSet.updateDaemonset o w) /\
    (snd (PersistentVolumeClaim.CreateFromBytes b w) = w \/
     exists o, PersistentVolumeClaim.CreateFromBytes b w
               = PersistentVolumeClaim.createPVC o w)).
  { intros b. unfold Deployment.UpdateFromBytes, DaemonSet.UpdateFromBytes,
      PersistentVolumeClaim.CreateFromBytes.
    destruct (yaml_ToJSON b) as [e|j];
      [repeat split; left; reflexivity|].
    rewrite !bind_lift_inr.
    repeat split;
      (destruct (json_Unmarshal _ j) as [e|o]; [left; reflexivity|]);
      right; exists o; reflexivity. }
  destruct v as [s|b|k o|k o|u|u|u|t|t]; simpl;
    try (repeat split; left; reflexivity);
    try apply Hbytes.
  - unfold Deployment.UpdateFromFile, DaemonSet.UpdateFromFile,
      PersistentVolumeClaim.CreateFromFile.
    destruct (ReadFile s) as [e|b]; [repeat split; left; reflexivity|].
    rewrite !bind_lift_inr. apply Hbytes.
  - repeat split; destruct k; simpl;
      try (left; reflexivity); right; exists o; reflexivity.
  - repeat split; destruct k; simpl;
      try (left; reflexivity); right; exists o; reflexivity.
  - unfold Deployment.UpdateFromUnstructured,
      DaemonSet.UpdateFromUnstructured,
      PersistentVolumeClaim.CreateFromUnstructured.
    repeat split;
      (destruct (FromUnstructured _ u) as [e|o]; [left; reflexivity|]);
      right; exists o; reflexivity.
Qed.

(** C9. Whatever the argument of a deployment or daemonset Update or of a
    persistentvolumeclaim Create, every request the operation adds to the
    log carries an object whose resourceVersion and uid are empty; and for
    an object given by pointer the request is sent, carrying that object
    with the two fields emptied and the rest unchanged. *)
Theorem C9_update_and_create_clear_version_and_uid {sdk : SDK}
  (v : value) (o : TypedObject) (w : World Handler) (c : APICall) :
  (In c (calls (snd (Deployment.Update v w))) ->
   In c (calls w) \/ sentCleared c) /\
  (In c (calls (snd (DaemonSet.Update v w))) ->
   In c (calls w) \/ sentCleared c) /\
  (In c (calls (snd (PersistentVolumeClaim.Create v w))) ->
   In c (calls w) \/ sentCleared c) /\
  (exists ns, calls (snd (Deployment.Update (VPtr KDeployment o) w)) =
     (calls w ++ [CallUpdate KDeployment ns (cleared o)
                    (UpdateOptions (Options (handler w)))])%list) /\
  (exists ns, calls (snd (DaemonSet.Update (VPtr KDaemonSet o) w)) =
     (calls w ++ [CallUpdate KDaemonSet ns (cleared o)
                    (UpdateOptions (Options (handler w)))])%list) /\
  (exists ns,
     calls (snd (PersistentVolumeClaim.Create
                   (VPtr KPersistentVolumeClaim o) w)) =
     (calls w ++ [CallCreate KPersistentVolumeClaim ns (cleared o)
                    (CreateOptions (Options (handler w)))])%list).
Proof.
  destruct (operations_reach_sender v w) as (Hd & Hs & Hp).
  assert (Hin : forall l c',
            sentCleared c' ->
            In c (l ++ [c'])%list -> In c l \/ sentCleared c).
  { intros l c' Hc' Hi. apply in_app_or in Hi.
    destruct Hi as [Hi|[<-|[]]]; auto. }
  repeat split.
  - destruct Hd as [-> | [o' ->]]; [auto|].
    rewrite (proj1 (senders_clear o' w)). apply Hin. unfold sentCleared. simpl. auto.
  - destruct Hs as [-> | [o' ->]]; [auto|].
    rewrite (proj1 (proj2 (senders_clear o' w))). apply Hin. unfold sentCleared. simpl. auto.
  - destruct Hp as [-> | [o' ->]]; [auto|].
    rewrite (proj2 (proj2 (senders_clear o' w))). apply Hin. unfold sentCleared. simpl. auto.
  - eexists. apply (senders_clear o w).
  - eexists. apply (senders_clear o w).
  - eexists. apply (senders_clear o w).
Qed.

Lemma C9_witness :
  let c := CallUpdate KDeployment (Some "batch")
             (mkObj (mkMeta "web" "batch" "" "") []) [] in
  In c (calls (snd (Deployment.Update (VMap Sample.job) Sample.w0))) /\
  (In c (calls Sample.w0) \/ sentCleared c).
Proof.
  intros c.
  assert (Hin : In c (calls (snd (Deployment.Update (VMap Sample.job)
                                    Sample.w0)))).
  { simpl. left. reflexivity. }
  split; [exact Hin|].
  exact (proj1 (C9_update_and_create_clear_version_and_uid
                  (sdk := Sample.sdk) (VMap Sample.job) Sample.web
                  Sample.w0 c) Hin).
Defined.

(** ** Watch *)

Section WatchLoop.
Variable U : Type.
Variable connect : nat -> ListOptions -> Result Watcher.


(** Draining a channel applies to each event the callback of its type, in
    the order of arrival. *)
Lemma drain_cons (addFunc modifyFunc deleteFunc : Namespace.callback U) (event : Event)
  (evs : list Event) (u : U) :
  Namespace.drain addFunc modifyFunc deleteFunc (event :: evs) u =
  Namespace.drain addFunc modifyFunc deleteFunc evs
    (Namespace.dispatch addFunc modifyFunc deleteFunc event u).
Proof. reflexivity. Qed.

(** A run that returned did so on a refused request, after reconnecting on
    every closure before it. *)
Lemma watchNamespace_returned (fuel : nat) (listOptions : ListOptions)
  (addFunc modifyFunc deleteFunc : Namespace.callback U) :
  forall (st st' : Namespace.WatchState U) (err : error),
  Namespace.watchNamespace connect fuel listOptions addFunc modifyFunc
    deleteFunc st = (Returned err, st') ->
  exists k, k < fuel /\
    connect (Namespace.opened st + k) listOptions = inl err /\
    (forall i, i < k -> reconnects connect listOptions (Namespace.opened st + i)) /\
    Namespace.opened st' = Namespace.opened st + S k /\
    Namespace.stopped st' = Namespace.stopped st + k.
Proof.
  induction fuel as [|fuel IH]; intros st st' err Hrun; simpl in Hrun.
  - discriminate.
  - destruct (connect (Namespace.opened st) listOptions) as [e|watcher] eqn:Hc.
    + injection Hrun as <- <-. exists 0. rewrite Nat.add_0_r. simpl.
      repeat split; try lia; auto.
    + destruct (closes watcher) eqn:Hcl; [|discriminate].
      apply IH in Hrun. simpl in Hrun.
      destruct Hrun as (k & Hk & Herr & Hre & Ho & Hs).
      exists (S k). rewrite Nat.add_succ_r. repeat split; try lia; auto.
      intros [|i] Hi.
      * rewrite Nat.add_0_r. exists watcher. auto.
      * rewrite Nat.add_succ_r. apply Hre. lia.
Qed.

(** As long as the server closes every channel, the loop is still running
    after any number of rounds, one request and one stop per round. *)
Lemma watchNamespace_keeps_looping (fuel : nat) (listOptions : ListOptions)
  (addFunc modifyFunc deleteFunc : Namespace.callback U) :
  forall st : Namespace.WatchState U,
  (forall i, i < fuel -> reconnects connect listOptions (Namespace.opened st + i)) ->
  exists st',
    Namespace.watchNamespace connect fuel listOptions addFunc modifyFunc
      deleteFunc st = (Looping, st') /\
    Namespace.opened st' = Namespace.opened st + fuel /\
    Namespace.stopped st' = Namespace.stopped st + fuel.
Proof.
  induction fuel as [|fuel IH]; intros st Hre; simpl.
  - exists st. repeat split; lia.
  - destruct (Hre 0 ltac:(lia)) as (watcher & Hc & Hcl).
    rewrite Nat.add_0_r in Hc. rewrite Hc, Hcl.
    edestruct IH as (st' & Hrun & Ho & Hs);
      [|exists st'; split; [exact Hrun|simpl in Ho, Hs; lia]].
    intros i Hi. simpl. specialize (Hre (S i) ltac:(lia)).
    rewrite Nat.add_succ_r in Hre. exact Hre.
Qed.

(** A refused request after [k] closures is returned, given more than [k]
    rounds. *)
Lemma watchNamespace_returns (fuel : nat) (listOptions : ListOptions)
  (addFunc modifyFunc deleteFunc : Namespace.callback U) :
  forall (st : Namespace.WatchState U) (k : nat) (err : error),
  k < fuel ->
  (forall i, i < k -> reconnects connect listOptions (Namespace.opened st + i)) ->
  connect (Namespace.opened st + k) listOptions = inl err ->
  fst (Namespace.watchNamespace connect fuel listOptions addFunc modifyFunc
         deleteFunc st) = Returned err.
Proof.
  induction fuel as [|fuel IH]; intros st k err Hk Hre Herr; [lia|].
  simpl. destruct k as [|k].
  - rewrite Nat.add_0_r in Herr. rewrite Herr. reflexivity.
  - destruct (Hre 0 ltac:(lia)) as (watcher & Hc & Hcl).
    rewrite Nat.add_0_r in Hc. rewrite Hc, Hcl.
    apply (IH _ k); simpl; [lia | |].
    + intros i Hi. specialize (Hre (S i) ltac:(lia)).
      rewrite Nat.add_succ_r in Hre. exact Hre.
    + rewrite Nat.add_succ_r in Herr. exact Herr.
Qed.

(** C4. The watch loop returns only on a refused Watch request: a run that
    returned [err] got [err] from its last request and had reopened a watch
    after each closure before ([k] closures, [k + 1] requests).  Closures
    alone never end it: while every channel is closed by the server the
    loop is still running after any number of rounds, with one request per
    round and nothing in between.  And the refusal is returned: with the
    [k + 1]-st request refused, every run of more than [k] rounds returns
    its error. *)
Theorem C4_watch_loop_returns_only_on_refused_request
  (fuel : nat) (listOptions : ListOptions)
  (addFunc modifyFunc deleteFunc : Namespace.callback U) (st : Namespace.WatchState U) :
  (forall st' err,
     Namespace.watchNamespace connect fuel listOptions addFunc modifyFunc
       deleteFunc st = (Returned err, st') ->
     exists k, k < fuel /\
       connect (Namespace.opened st + k) listOptions = inl err /\
       (forall i, i < k -> reconnects connect listOptions (Namespace.opened st + i)) /\
       Namespace.opened st' = Namespace.opened st + S k /\
       Namespace.stopped st' = Namespace.stopped st + k) /\
  ((forall i, i < fuel -> reconnects connect listOptions (Namespace.opened st + i)) ->
   exists st',
     Namespace.watchNamespace connect fuel listOptions addFunc modifyFunc
       deleteFunc st = (Looping, st') /\
     Namespace.opened st' = Namespace.opened st + fuel /\
     Namespace.stopped st' = Namespace.stopped st + fuel) /\
  (forall k err,
     k < fuel ->
     (forall i, i < k -> reconnects connect listOptions (Namespace.opened st + i)) ->
     connect (Namespace.opened st + k) listOptions = inl err ->
     fst (Namespace.watchNamespace connect fuel listOptions addFunc
            modifyFunc deleteFunc st) = Returned err).
Proof.
  split; [|split].
  - intros st' err. apply watchNamespace_returned.
  - apply watchNamespace_keeps_looping.
  - intros k err. apply watchNamespace_returns.
Qed.

(** Each event reaches the callback the loop was given for its type. *)
Lemma dispatch_by_type (addFunc modifyFunc deleteFunc : Namespace.callback U)
  (obj : value) (u : U) :
  Namespace.dispatch addFunc modifyFunc deleteFunc (mkEvent Added obj) u
    = addFunc obj u /\
  Namespace.dispatch addFunc modifyFunc deleteFunc (mkEvent Modified obj) u
    = modifyFunc obj u /\
  Namespace.dispatch addFunc modifyFunc deleteFunc (mkEvent Deleted obj) u
    = deleteFunc obj u /\
  Namespace.dispatch addFunc modifyFunc deleteFunc (mkEvent Bookmark obj) u
    = u /\
  Namespace.dispatch addFunc modifyFunc deleteFunc (mkEvent Error obj) u
    = u.
Proof. repeat split. Qed.

(** Watch hands its second and third callback to the loop in exchanged
    positions. *)
Lemma Watch_exchanges_callbacks (fuel : nat)
  (addFunc modifyFunc deleteFunc : Namespace.callback U) (st : Namespace.WatchState U) :
  Namespace.Watch connect fuel addFunc modifyFunc deleteFunc st =
  Namespace.WatchByLabel connect fuel "" addFunc deleteFunc modifyFunc st.
Proof. reflexivity. Qed.

End WatchLoop.

Lemma C4_witness :
  fst (Namespace.watchNamespace Sample.connect 7
         (mkListOptions "" "" (Some 0%Z))
         (Sample.note "add") (Sample.note "modify") (Sample.note "delete")
         Sample.start)
  = Returned (ErrExternal "connection refused").
Proof.
  apply (C4_watch_loop_returns_only_on_refused_request Sample.journal
           Sample.connect 7 (mkListOptions "" "" (Some 0%Z))
           (Sample.note "add") (Sample.note "modify") (Sample.note "delete")
           Sample.start) with (k := 2).
  - lia.
  - intros [|[|i]] Hi; simpl.
    + eexists; split; reflexivity.
    + eexists; split; reflexivity.
    + lia.
  - reflexivity.
Defined.

(** C2. Watch(addFunc, modifyFunc, deleteFunc) is to call modifyFunc on a
    Modified event and deleteFunc on a Deleted one.  With callbacks that
    write their own name, a Modified event for "ns1" followed by an Added, a
    Bookmark and a Deleted one leave the journal delete, add, modify: Watch
    passes deleteFunc and modifyFunc to WatchByLabel in exchanged positions.
    WatchByLabel itself, given the same callbacks, writes modify, add,
    delete. *)
Theorem C2_watch_calls_delete_on_modified :
  map fst (Namespace.user (snd
    (Namespace.Watch Sample.connect 7
       (Sample.note "add") (Sample.note "modify") (Sample.note "delete")
       Sample.start)))
  = ["delete"; "add"; "modify"] /\
  map fst (Namespace.user (snd
    (Namespace.WatchByLabel Sample.connect 7 ""
       (Sample.note "add") (Sample.note "modify") (Sample.note "delete")
       Sample.start)))
  = ["modify"; "add"; "delete"].
Proof. split; reflexivity. Qed.

(** * Properties of the code beside the claims *)

(** ** Typed operations: input shapes *)

Lemma returning_lift_inl {sdk : SDK} {H A B : Type}
  (f : B -> option TypedObject) (e : error) (k : A -> M H B) (w : World H) :
  returning f (x <- lift (inl e) ;; k x) w = (inl e, w).
Proof. reflexivity. Qed.

Lemma Kind_eqb_refl (k : Kind) : Kind_eqb k k = true.
Proof. destruct k; simpl; auto using String.eqb_refl. Qed.

Lemma Kind_eqb_eq (a b : Kind) : Kind_eqb a b = true -> a = b.
Proof.
  destruct a, b; simpl; try discriminate; try reflexivity.
  intros H. apply String.eqb_eq in H. congruence.
Qed.

Lemma assertPtr_Some (k : Kind) (v : value) (o : TypedObject) :
  assertPtr k v = Some o <-> v = VPtr k o.
Proof.
  split.
  - destruct v; simpl; try discriminate.
    destruct (Kind_eqb k k0) eqn:Hk; [|discriminate].
    apply Kind_eqb_eq in Hk. intros [= ->]. congruence.
  - intros ->. simpl. rewrite Kind_eqb_refl. reflexivity.
Qed.

(** The four shapes of an object, shape by shape. *)
Lemma runOp_on_shapes {sdk : SDK} (op : TypedOp) (o : TypedObject)
  (w : World Handler) :
  runOp op (VPtr (opKind op) o) w = onObject op o w /\
  runOp op (VStruct (opKind op) o) w = onObject op o w /\
  (forall data j,
     yaml_ToJSON data = inr j ->
     json_Unmarshal (opKind op) j = inr o ->
     runOp op (VBytes data) w = onObject op o w) /\
  (forall u,
     FromUnstructured (opKind op) u = inr o ->
     runOp op (VMap u) w = onObject op o w).
Proof.
  split; [destruct op; reflexivity|].
  split; [destruct op; reflexivity|].
  split.
  - intros data j Hy Hu.
    destruct op; simpl in *; unfold returning;
      unfold Deployment.UpdateFromBytes, DaemonSet.UpdateFromBytes,
        PersistentVolumeClaim.CreateFromBytes, Node.DeleteFromBytes,
        RoleBinding.DeleteFromBytes, ConfigMap.GetFromBytes,
        Ingress.GetFromBytes;
      rewrite Hy, bind_lift_inr, Hu, bind_lift_inr; reflexivity.
  - intros u Hu.
    destruct op; simpl in *; unfold returning;
      unfold Deployment.UpdateFromUnstructured,
        DaemonSet.UpdateFromUnstructured,
        PersistentVolumeClaim.CreateFromUnstructured,
        Node.DeleteFromUnstructured, RoleBinding.DeleteFromMap,
        ConfigMap.GetFromUnstructured, Ingress.GetFromUnstructured;
      rewrite Hu, bind_lift_inr; reflexivity.
Qed.

(** X1. A pointer to the operation's own struct and the struct by value run the
    private method on the object; so do raw bytes and a generic map that
    decode to it. *)
Theorem typed_shapes_agree {sdk : SDK} (op : TypedOp) (o : TypedObject)
  (w : World Handler) :
  runOp op (VPtr (opKind op) o) w = onObject op o w /\
  runOp op (VStruct (opKind op) o) w = onObject op o w /\
  (forall data j,
     yaml_ToJSON data = inr j ->
     json_Unmarshal (opKind op) j = inr o ->
     runOp op (VBytes data) w = onObject op o w) /\
  (forall u,
     FromUnstructured (opKind op) u = inr o ->
     runOp op (VMap u) w = onObject op o w).
Proof.
  destruct (runOp_on_shapes op o w) as (Hptr & Hval & Hbytes & Hmap).
  split; [exact Hptr|]. split; [exact Hval|].
  split.
  - intros data j Hy Hu. exact (Hbytes data j Hy Hu).
  - intros u Hu. exact (Hmap u Hu).
Qed.

Lemma typed_shapes_agree_witness :
  runOp RoleBindingDelete (VBytes Sample.manifest) Sample.w0
    = onObject RoleBindingDelete Sample.web Sample.w0 /\
  runOp IngressGet (VMap Sample.job) Sample.w0
    = onObject IngressGet (mkObj (mkMeta "web" "batch" "7" "u-2") [])
        Sample.w0.
Proof.
  split.
  - apply (typed_shapes_agree (sdk := Sample.sdk) RoleBindingDelete
             Sample.web Sample.w0) with (j := Sample.manifest);
      reflexivity.
  - apply (typed_shapes_agree (sdk := Sample.sdk) IngressGet
             (mkObj (mkMeta "web" "batch" "7" "u-2") []) Sample.w0).
    reflexivity.
Defined.



Lemma Kind_eqb_sym (a b : Kind) : Kind_eqb a b = Kind_eqb b a.
Proof. destruct a, b; simpl; auto using String.eqb_sym. Qed.




(** X3. A [runtime.Object] that is not a pointer to the operation's own struct
    is refused before any request: by the update, create and delete
    operations with their "object is not" error, a
    [*unstructured.Unstructured] given to rolebinding Delete included (the
    [runtime.Object] case comes first in its type switch); by the two Get
    operations, which have no [runtime.Object] case, with ERR_TYPE_GET. *)
Theorem foreign_object_is_refused {sdk : SDK} (op : TypedOp) (v : value)
  (w : World Handler) :
  implementsObject v = true ->
  assertPtr (opKind op) v = None ->
  runOp op v w = (inl (notOwnType op), w).
Proof.
  intros Hobj Hnot.
  destruct v as [s|b|k o|k o|u|u|u|t|t]; simpl in Hobj; try discriminate.
  - simpl in Hnot. destruct (Kind_eqb (opKind op) k) eqn:Hk; [discriminate|].
    destruct op;
      try (destruct k; simpl in Hk; try discriminate; reflexivity).
    change (Kind_eqb KIngress k = false) in Hk.
    unfold runOp, Ingress.Get, returning.
    rewrite Kind_eqb_sym, Hk. reflexivity.
  - destruct op; reflexivity.
  - destruct op; reflexivity.
Qed.

Lemma foreign_object_is_refused_witness :
  runOp RoleBindingDelete (VUnstructuredPtr Sample.job) Sample.w0
    = (inl (Errorf "object is not *rbacv1.RoleBinding"), Sample.w0) /\
  runOp ConfigMapGet (VPtr KNode Sample.web) Sample.w0
    = (inl ERR_TYPE_GET, Sample.w0).
Proof.
  split.
  - apply (foreign_object_is_refused (sdk := Sample.sdk) RoleBindingDelete
             (VUnstructuredPtr Sample.job) Sample.w0); reflexivity.
  - apply (foreign_object_is_refused (sdk := Sample.sdk) ConfigMapGet
             (VPtr KNode Sample.web) Sample.w0); reflexivity.
Defined.

(** X4. Delete and Get by name act as on an object of that name: for a node
    whatever namespace the object records, for a rolebinding, configmap or
    ingress when the object records no namespace or the handler's own. *)
Theorem by_name_is_by_object {sdk : SDK} (op : TypedOp) (o : TypedObject)
  (w : World Handler) :
  op = NodeDelete \/
  (op = RoleBindingDelete \/ op = ConfigMapGet \/ op = IngressGet) /\
  (Namespace (Meta o) = "" \/ Namespace (Meta o) = namespace (handler w)) ->
  runOp op (VString (Name (Meta o))) w = runOp op (VPtr (opKind op) o) w.
Proof.
  assert (Hres : Namespace (Meta o) = "" \/
                 Namespace (Meta o) = namespace (handler w) ->
                 resolveNamespace (Namespace (Meta o)) (namespace (handler w))
                 = namespace (handler w)).
  { unfold resolveNamespace. intros [-> | Heq]; [reflexivity|].
    destruct (nonempty _); congruence. }
  intros [-> | [[-> | [-> | ->]] Hns]];
    rewrite (proj1 (runOp_on_shapes _ o w)); simpl;
    try reflexivity;
    unfold returning, RoleBinding.DeleteByName, RoleBinding.deleteRolebinding,
      ConfigMap.GetByName, ConfigMap.getConfigmap, Ingress.GetByName,
      Ingress.getIngress, bind, getHandler;
    rewrite (Hres Hns); reflexivity.
Qed.

Lemma by_name_is_by_object_witness :
  runOp NodeDelete (VString "web") Sample.w0
    = runOp NodeDelete (VPtr KNode Sample.web) Sample.w0 /\
  runOp ConfigMapGet (VString "web") Sample.w0
    = runOp ConfigMapGet (VPtr KConfigMap Sample.bare) Sample.w0.
Proof.
  split.
  - apply (by_name_is_by_object (sdk := Sample.sdk) NodeDelete Sample.web
             Sample.w0). left. reflexivity.
  - apply (by_name_is_by_object (sdk := Sample.sdk) ConfigMapGet Sample.bare
             Sample.w0). right. split; [auto | left; reflexivity].
Defined.

(** ** Patch beside the claims *)

(** Raw bytes under JSONPatchType: the data as converted goes out. *)
Lemma json_patch_bytes {sdk : SDK} (p : PatchPackage) (original : TypedObject)
  (val pd : bytes) (opts : list PatchType) (w : World Handler) :
  yaml_ToJSON val = inr pd ->
  firstOptionIs JSONPatchType opts = true ->
  PatchOf p original (VBytes val) opts w =
    request (CallPatch (kindOf p) None (Name (Meta original)) JSONPatchType
               pd (PatchOptions (Options (handler w)))) w.
Proof.
  intros Hy Hj.
  destruct p; simpl; unfold PersistentVolume.Patch, ClusterRole.Patch;
    rewrite Hy, bind_lift_inr, Hj; reflexivity.
Qed.

(** X5. With JSONPatchType as first option, raw patch data is sent as it is,
    empty data and the literal [{}] included: the JSON-patch path has no
    short cut for an empty patch. *)
Theorem json_patch_is_always_sent {sdk : SDK} (p : PatchPackage)
  (original : TypedObject) (patch : value) (opts : list PatchType)
  (pd : bytes) (w : World Handler) :
  rawPatchData patch = Some (inr pd) ->
  firstOptionIs JSONPatchType opts = true ->
  PatchOf p original patch opts w =
    request (CallPatch (kindOf p) None (Name (Meta original)) JSONPatchType
               pd (PatchOptions (Options (handler w)))) w.
Proof.
  intros Hdata Hj.
  assert (Hbytes : forall val, yaml_ToJSON val = inr pd ->
            PatchOf p original (VBytes val) opts w =
            request (CallPatch (kindOf p) None (Name (Meta original))
                       JSONPatchType pd
                       (PatchOptions (Options (handler w)))) w).
  { intros val Hy. exact (json_patch_bytes p original val pd opts w Hy Hj). }
  destruct patch as [s|b|k o|k o|u|u|u|t|t]; try discriminate.
  - simpl in Hdata. destruct (ReadFile s) as [e|data] eqn:Hr;
      injection Hdata as Hy; [discriminate|].
    destruct (Patch_file_as_bytes original s data opts w Hr) as [Hpv Hcr].
    transitivity (PatchOf p original (VBytes data) opts w);
      [destruct p; assumption | exact (Hbytes data Hy)].
  - simpl in Hdata. injection Hdata as Hy. exact (Hbytes b Hy).
Qed.

Lemma json_patch_is_always_sent_witness :
  PatchOf persistentvolume Sample.web (VString "empty.yaml") [JSONPatchType]
    Sample.w0 =
  request (CallPatch KPersistentVolume None "web" JSONPatchType
             (bytes_of "{}") []) Sample.w0.
Proof.
  exact (json_patch_is_always_sent (sdk := Sample.sdk) persistentvolume
           Sample.web (VString "empty.yaml") [JSONPatchType] (bytes_of "{}")
           Sample.w0 eq_refl eq_refl).
Defined.

(** X6. Patch reads the first of its patch options only. *)
Theorem patch_reads_first_option_only {sdk : SDK} (p : PatchPackage)
  (original : TypedObject) (patch : value) (first : PatchType)
  (rest : list PatchType) (w : World Handler) :
  PatchOf p original patch (first :: rest) w =
  PatchOf p original patch [first] w.
Proof.
  destruct p; destruct patch as [s|b|k o|k o|u|u|u|t|t]; try reflexivity;
    destruct k; reflexivity.
Qed.


(** ** The dynamic delete beside the claims *)

(** deleteUnstructured once the REST mapper has answered: the policy step
    for jobs, then one request. *)
Lemma deleteUnstructured_resolved {sdk : SDK} {disc : Discovery}
  (u : UMap) (w : World Dynamic.Handler)
  (gvr : schema.GroupVersionResource) (gvk : schema.GroupVersionKind)
  (isNamespaced : bool) :
  resolved u = inr (gvr, gvk, isNamespaced) ->
  let h := handler w in
  let opts := if isJobKind gvk
              then SetPropagationPolicy "background" (Dynamic.Options h)
              else Dynamic.Options h in
  let ns := if isNamespaced
            then Some (resolveNamespace (GetNamespace u) (Dynamic.namespace h))
            else None in
  Dynamic.deleteUnstructured u w =
    requestErr (CallDynamicDelete gvr ns (GetName u) (DeleteOptions opts))
      (mkWorld (Dynamic.mkHandler (Dynamic.namespace h) (Dynamic.gvk h) opts)
         (calls w) (cluster w)).
Proof.
  unfold resolved. intros Hres.
  destruct (FindGVR u) as [e|gvr'] eqn:Hr; [discriminate|].
  destruct (FindGVK u) as [e|gvk'] eqn:Hk; [discriminate|].
  destruct (IsNamespaced gvk') as [e|b] eqn:Hn; [discriminate|].
  injection Hres as -> -> ->.
  unfold Dynamic.deleteUnstructured.
  rewrite Hr, bind_lift_inr, Hk, bind_lift_inr, Hn, bind_lift_inr.
  unfold Dynamic.backgroundForJobs, isJobKind.
  destruct w as [[hn hg ho] cs cl]. simpl.
  destruct (String.eqb (schema.Kind gvk) KindJob
            || String.eqb (schema.Kind gvk) KindCronJob);
    destruct isNamespaced; reflexivity.
Qed.

(** deleteUnstructured when the REST mapper fails. *)
Lemma deleteUnstructured_unresolved {sdk : SDK} {disc : Discovery}
  (u : UMap) (e : error) (w : World Dynamic.Handler) :
  resolved u = inl e ->
  Dynamic.deleteUnstructured u w = (inl e, w).
Proof.
  unfold resolved. intros Hres. unfold Dynamic.deleteUnstructured.
  destruct (FindGVR u) as [e1|gvr];
    [injection Hres as ->; reflexivity|].
  rewrite bind_lift_inr.
  destruct (FindGVK u) as [e2|gvk];
    [injection Hres as ->; reflexivity|].
  rewrite bind_lift_inr.
  destruct (IsNamespaced gvk) as [e3|b];
    [injection Hres as ->; reflexivity | discriminate].
Qed.

(** X8. When the REST mapper cannot tell the resource, the kind or the scope of
    an object, the dynamic delete returns the mapper's error with no request
    sent and the handler's options as they were. *)
Theorem dynamic_delete_mapper_error_changes_nothing
  {sdk : SDK} {disc : Discovery} (u : UMap) (e : error)
  (w : World Dynamic.Handler) :
  resolved u = inl e ->
  Dynamic.deleteUnstructured u w = (inl e, w) /\
  Dynamic.Delete (VMap u) w = (inl e, w) /\
  Dynamic.Delete (VUnstructured u) w = (inl e, w) /\
  Dynamic.Delete (VUnstructuredPtr u) w = (inl e, w).
Proof.
  intros Hres.
  pose proof (deleteUnstructured_unresolved u e w Hres) as H.
  split; [exact H|]. split; [|split]; simpl.
  - unfold Dynamic.DeleteFromMap. exact H.
  - exact H.
  - exact H.
Qed.

(** X9. The background policy set for a Job or CronJob stays on the handler:
    such a delete carries the handler's delete options with the policy set,
    leaves the handler with them, and the delete of an object of any other
    kind that follows carries them too. *)
Theorem dynamic_delete_job_policy_sticks {sdk : SDK} {disc : Discovery}
  (job other : UMap) (w : World Dynamic.Handler)
  (gvr gvr' : schema.GroupVersionResource)
  (gvk gvk' : schema.GroupVersionKind) (scoped scoped' : bool) :
  resolved job = inr (gvr, gvk, scoped) ->
  isJobKind gvk = true ->
  resolved other = inr (gvr', gvk', scoped') ->
  isJobKind gvk' = false ->
  let opts := SetPropagationPolicy "background"
                (Dynamic.Options (handler w)) in
  let w1 := snd (Dynamic.deleteUnstructured job w) in
  let w2 := snd (Dynamic.deleteUnstructured other w1) in
  Dynamic.Options (handler w1) = opts /\
  Dynamic.Options (handler w2) = opts /\
  map deleteOptionsOf (calls w2)
    = (map deleteOptionsOf (calls w)
       ++ [Some (DeleteOptions opts); Some (DeleteOptions opts)])%list.
Proof.
  intros Hjob Hisjob Hother Hnojob opts w1 w2.
  pose proof (deleteUnstructured_resolved job w gvr gvk scoped Hjob) as H1.
  simpl in H1. rewrite Hisjob in H1. fold opts in H1.
  assert (Hw1 : handler w1 =
                Dynamic.mkHandler (Dynamic.namespace (handler w))
                  (Dynamic.gvk (handler w)) opts /\
                calls w1 = (calls w ++ [CallDynamicDelete gvr
                  (if scoped
                   then Some (resolveNamespace (GetNamespace job)
                                (Dynamic.namespace (handler w)))
                   else None) (GetName job) (DeleteOptions opts)])%list).
  { unfold w1. rewrite H1. unfold requestErr, bind.
    rewrite request_run. simpl.
    destruct (fst (serve _ _)); simpl; auto. }
  destruct Hw1 as [Hh1 Hc1].
  pose proof (deleteUnstructured_resolved other w1 gvr' gvk' scoped' Hother)
    as H2.
  simpl in H2. rewrite Hnojob, Hh1 in H2. simpl in H2.
  assert (Hw2 : handler w2 =
                Dynamic.mkHandler (Dynamic.namespace (handler w))
                  (Dynamic.gvk (handler w)) opts /\
                map deleteOptionsOf (calls w2) =
                (map deleteOptionsOf (calls w1)
                 ++ [Some (DeleteOptions opts)])%list).
  { unfold w2. rewrite H2. unfold requestErr, bind.
    rewrite request_run. simpl.
    destruct (fst (serve _ _)); simpl; rewrite map_app; auto. }
  destruct Hw2 as [Hh2 Hc2].
  rewrite Hh1, Hh2, Hc2, Hc1, map_app, <- app_assoc. auto.
Qed.

(** X10. An object of a cluster-scoped kind is deleted on the cluster-scoped
    interface, whatever namespace its metadata and the handler name; and a
    delete by name goes to the handler's namespace for a namespaced kind and
    to the cluster-scoped interface otherwise. *)
Theorem dynamic_delete_scope {sdk : SDK} {disc : Discovery}
  (u : UMap) (name : string) (w : World Dynamic.Handler)
  (gvr : schema.GroupVersionResource) (gvk : schema.GroupVersionKind)
  (scoped : bool) :
  (resolved u = inr (gvr, gvk, false) ->
   map targetNamespace (calls (snd (Dynamic.deleteUnstructured u w)))
     = (map targetNamespace (calls w) ++ [None])%list) /\
  (GVKToGVR (Dynamic.gvk (handler w)) = inr gvr ->
   IsNamespaced (Dynamic.gvk (handler w)) = inr scoped ->
   map targetNamespace (calls (snd (Dynamic.Delete (VString name) w)))
     = (map targetNamespace (calls w)
        ++ [if scoped then Some (Dynamic.namespace (handler w))
            else None])%list).
Proof.
  split.
  - intros Hres.
    rewrite (deleteUnstructured_resolved u w gvr gvk false Hres).
    unfold requestErr, bind. rewrite request_run. simpl.
    destruct (fst (serve _ _)); simpl; rewrite map_app; reflexivity.
  - intros Hr Hn. simpl. unfold Dynamic.DeleteByName.
    unfold bind at 1, getHandler at 1.
    rewrite Hr, bind_lift_inr, Hn, bind_lift_inr.
    unfold Dynamic.backgroundForJobs.
    destruct w as [[hn hg ho] cs cl]. simpl.
    destruct (String.eqb (schema.Kind hg) KindJob
              || String.eqb (schema.Kind hg) KindCronJob);
      destruct scoped; run; destruct (serve _ _) as [[e|r] cl'];
      simpl; rewrite map_app; reflexivity.
Qed.

Lemma dynamic_delete_mapper_error_changes_nothing_witness :
  Dynamic.Delete (disc := Fixture.disc) (VMap Fixture.widget) Fixture.dw
    = (inl (ErrExternal "no matches for kind"), Fixture.dw).
Proof.
  apply (dynamic_delete_mapper_error_changes_nothing (sdk := Sample.sdk)
           (disc := Fixture.disc) Fixture.widget
           (ErrExternal "no matches for kind") Fixture.dw).
  reflexivity.
Defined.

Lemma dynamic_delete_job_policy_sticks_witness :
  map deleteOptionsOf
    (calls (snd (Dynamic.deleteUnstructured (disc := Fixture.disc)
                   Fixture.pod
                   (snd (Dynamic.deleteUnstructured (disc := Fixture.disc)
                           Fixture.job Fixture.dw)))))
  = [Some (bytes_of "background"); Some (bytes_of "background")].
Proof.
  apply (dynamic_delete_job_policy_sticks (sdk := Sample.sdk)
           (disc := Fixture.disc) Fixture.job Fixture.pod Fixture.dw
           (schema.mkGVR "" "v1" "Jobs") (schema.mkGVR "" "v1" "Pods")
           (schema.mkGVK "" "v1" "Job") (schema.mkGVK "" "v1" "Pod")
           true true); reflexivity.
Defined.

Lemma dynamic_delete_scope_witness :
  map targetNamespace
    (calls (snd (Dynamic.deleteUnstructured (disc := Fixture.disc)
                   Fixture.node Fixture.dw))) = [None] /\
  map targetNamespace
    (calls (snd (Dynamic.Delete (disc := Fixture.disc) (VString "n1")
                   Fixture.dw))) = [None].
Proof.
  pose proof (dynamic_delete_scope (sdk := Sample.sdk) (disc := Fixture.disc)
                Fixture.node "n1" Fixture.dw (schema.mkGVR "" "v1" "Nodes")
                (schema.mkGVK "" "v1" "Node") false) as [Hobj Hname].
  split.
  - exact (Hobj eq_refl).
  - exact (Hname eq_refl eq_refl).
Defined.

(** ** The namespace watch loop beside the claims *)

Section WatchDelivery.
Variable U : Type.
Variable connect : nat -> ListOptions -> Result Watcher.

Lemma drain_app (addFunc modifyFunc deleteFunc : Namespace.callback U)
  (evs evs' : list Event) (u : U) :
  Namespace.drain addFunc modifyFunc deleteFunc (evs ++ evs') u =
  Namespace.drain addFunc modifyFunc deleteFunc evs'
    (Namespace.drain addFunc modifyFunc deleteFunc evs u).
Proof. unfold Namespace.drain. apply fold_left_app. Qed.

(** The count of Watch requests never goes down. *)
Lemma watchNamespace_opened_le (fuel : nat) (listOptions : ListOptions)
  (addFunc modifyFunc deleteFunc : Namespace.callback U) :
  forall st : Namespace.WatchState U,
  Namespace.opened st <=
  Namespace.opened (snd (Namespace.watchNamespace connect fuel listOptions
                           addFunc modifyFunc deleteFunc st)).
Proof.
  induction fuel as [|fuel IH]; intros st; simpl; [lia|].
  destruct (connect (Namespace.opened st) listOptions) as [e|watcher];
    simpl; [lia|].
  destruct (closes watcher); simpl; [|lia].
  etransitivity; [|apply IH]. simpl. lia.
Qed.

(** The caller's state after a run, in terms of the events delivered. *)
Lemma watchNamespace_delivered
  (fuel : nat) (listOptions : ListOptions)
  (addFunc modifyFunc deleteFunc : Namespace.callback U) :
  forall st : Namespace.WatchState U,
  let st' := snd (Namespace.watchNamespace connect fuel listOptions addFunc
                    modifyFunc deleteFunc st) in
  Namespace.user st' =
  Namespace.drain addFunc modifyFunc deleteFunc
    (delivered connect listOptions (Namespace.opened st)
       (Namespace.opened st' - Namespace.opened st))
    (Namespace.user st).
Proof.
  induction fuel as [|fuel IH]; intros st; cbn -[Nat.sub].
  - rewrite Nat.sub_diag. reflexivity.
  - destruct (connect (Namespace.opened st) listOptions) as [e|watcher]
      eqn:Hc; cbn -[Nat.sub].
    + replace (S (Namespace.opened st) - Namespace.opened st) with 1 by lia.
      cbn. rewrite Hc. reflexivity.
    + destruct (closes watcher); cbn -[Nat.sub].
      * set (st1 := Namespace.mkWatchState _ _ _).
        pose proof (watchNamespace_opened_le fuel listOptions addFunc
                      modifyFunc deleteFunc st1) as Hle.
        specialize (IH st1). cbn -[Nat.sub] in IH, Hle. rewrite IH.
        set (n' := Namespace.opened (snd _)) in *.
        replace (n' - Namespace.opened st)
          with (S (n' - S (Namespace.opened st))) by lia.
        cbn [delivered]. rewrite Hc, drain_app. reflexivity.
      * replace (S (Namespace.opened st) - Namespace.opened st) with 1
          by lia.
        cbn. rewrite Hc, app_nil_r. reflexivity.
Qed.

(** X11. However a run of the watch loop stands after any number of rounds, the
    callbacks have been applied to exactly the events of the watchers opened
    so far, each once, in the order of arrival and across reconnects; the
    count of watchers opened never goes down. *)
Theorem watch_delivers_every_event_once_in_order
  (fuel : nat) (listOptions : ListOptions)
  (addFunc modifyFunc deleteFunc : Namespace.callback U)
  (st : Namespace.WatchState U) :
  let st' := snd (Namespace.watchNamespace connect fuel listOptions addFunc
                    modifyFunc deleteFunc st) in
  Namespace.opened st <= Namespace.opened st' /\
  Namespace.user st' =
  Namespace.drain addFunc modifyFunc deleteFunc
    (delivered connect listOptions (Namespace.opened st)
       (Namespace.opened st' - Namespace.opened st))
    (Namespace.user st).
Proof.
  intros st'. split.
  - apply watchNamespace_opened_le.
  - apply watchNamespace_delivered.
Qed.

(** X12. Bookmark and Error events, and events of any type the loop does not
    know, reach no callback: with them taken out of the stream the
    callbacks do the same. *)
Theorem watch_ignores_events_without_callback
  (addFunc modifyFunc deleteFunc : Namespace.callback U)
  (evs : list Event) (u : U) :
  Namespace.drain addFunc modifyFunc deleteFunc evs u =
  Namespace.drain addFunc modifyFunc deleteFunc (filter hasCallback evs) u.
Proof.
  revert u. induction evs as [|[t obj] evs IH]; intros u; [reflexivity|].
  unfold hasCallback at 1. simpl filter.
  destruct t; simpl; rewrite ?drain_cons; apply IH.
Qed.

End WatchDelivery.

(** ** The serviceaccount watch loop *)






Section ServiceAccountLoop.
Variable U : Type.
Variable connect : nat -> string -> ListOptions -> Result Watcher.
Variable Get : nat -> string -> Result TypedObject.
Variable List : nat -> string -> Result (list TypedObject).
Variable namespace : string.




End ServiceAccountLoop.


(** ** Handler construction *)

Lemma nonempty_true (s : string) : nonempty s = true <-> s <> "".
Proof. destruct s; simpl; split; congruence. Qed.

Lemma namespaceOrDefault_nonempty (ns : string) :
  namespaceOrDefault ns <> "".
Proof.
  unfold namespaceOrDefault. destruct (nonempty ns) eqn:Hn.
  - apply nonempty_true. exact Hn.
  - discriminate.
Qed.

Section Construction.
Context {cg : ClientGo} {io : InformerOptions} {gs : GoStrings}.

(** The handler cronjob's [New] makes once its clients are built. *)
Lemma cronjob_New_inr (ctx : GoContext) (kubeconfig namespace : string)
  (r : Run CronJobHandler.Handler) :
  CronJobHandler.New ctx kubeconfig namespace = inr r ->
  exists cfg h,
    match chosenFile kubeconfig with
    | Some path => BuildConfigFromFlags "" path
    | None => InClusterConfig
    end = inr cfg /\
    r = Done h /\
    CronJobHandler.config h
      = mkRestConfig (Host cfg) "api" (Some ("batch", "v1"))
          (Some "scheme.Codecs") /\
    CronJobHandler.kubeconfig h = kubeconfig /\
    CronJobHandler.namespace h = namespaceOrDefault namespace /\
    CronJobHandler.Options h
      = typed.mkOptions (typed.ListOptions typed.zero)
          (typed.GetOptions typed.zero) (typed.CreateOptions typed.zero)
          (typed.UpdateOptions typed.zero)
          (metav1.mkDelete None (Some "Background") [])
          (typed.PatchOptions typed.zero) (typed.ApplyOptions typed.zero) /\
    CronJobHandler.locked h = false.
Proof.
  unfold CronJobHandler.New, chosenFile, andThen.
  set (source := if nonempty kubeconfig then _ else _).
  assert (Hsrc : source =
            match (if nonempty kubeconfig then Some kubeconfig
                   else if nonempty (Getenv RecommendedConfigPathEnvVar)
                        then Some (Getenv RecommendedConfigPathEnvVar)
                   else if nonempty RecommendedHomeFile
                        then Some RecommendedHomeFile
                   else None) with
            | Some path => BuildConfigFromFlags "" path
            | None => InClusterConfig
            end).
  { unfold source. destruct (nonempty kubeconfig); [reflexivity|].
    destruct (nonempty (Getenv _)); [reflexivity|].
    destruct (nonempty RecommendedHomeFile); reflexivity. }
  rewrite <- Hsrc. clear Hsrc.
  destruct source as [e|cfg]; [discriminate|].
  destruct (HTTPClientFor _) as [e|hc]; [discriminate|].
  destruct (RESTClientForConfigAndClient _ _) as [e|rc]; [discriminate|].
  destruct (NewForConfigAndClient _ _) as [e|cs]; [discriminate|].
  destruct (NewDynamicForConfigAndClient _ _) as [e|dc]; [discriminate|].
  destruct (NewDiscoveryClientForConfigAndClient _ _) as [e|dsc];
    [discriminate|].
  intros [= <-]. exists cfg. eexists. split; [reflexivity|].
  split; [reflexivity|]. repeat split.
Qed.

(** X15. A handler is never made for the empty namespace: [New] of deployment
    and of cronjob put "default" in its place, and keep any other namespace
    as given. *)
Theorem New_puts_default_for_the_empty_namespace
  (ctx : GoContext) (kubeconfig namespace : string) :
  (forall h,
     DeploymentHandler.New ctx namespace kubeconfig = inr h ->
     DeploymentHandler.namespace h = namespaceOrDefault namespace /\
     DeploymentHandler.namespace h <> "" /\
     DeploymentHandler.Options h = typed.zero /\
     DeploymentHandler.locked h = false) /\
  (forall r,
     CronJobHandler.New ctx kubeconfig namespace = inr r ->
     exists h, r = Done h /\
       CronJobHandler.namespace h = namespaceOrDefault namespace /\
       CronJobHandler.namespace h <> "" /\
       typed.DeleteOptions (CronJobHandler.Options h)
         = metav1.mkDelete None (Some "Background") [] /\
       CronJobHandler.locked h = false).
Proof.
  split.
  - intros h. unfold DeploymentHandler.New, andThen.
    destruct (if nonempty kubeconfig then _ else _) as [e|cfg];
      [discriminate|].
    destruct (RESTClientFor _) as [e|rc]; [discriminate|].
    destruct (NewForConfig _) as [e|cs]; [discriminate|].
    destruct (NewDynamicForConfig _) as [e|dc]; [discriminate|].
    destruct (NewDiscoveryClientForConfig _) as [e|dsc]; [discriminate|].
    intros [= <-]. simpl. repeat split.
    apply namespaceOrDefault_nonempty.
  - intros r Hr.
    destruct (cronjob_New_inr ctx kubeconfig namespace r Hr)
      as (cfg & h & _ & -> & _ & _ & Hns & Ho & Hl).
    exists h. rewrite Hns, Ho. repeat split; auto.
    apply namespaceOrDefault_nonempty.
Qed.

(** X16. Where the configuration comes from.  deployment reads the kubeconfig
    file when one is given and asks the pod environment otherwise.  cronjob
    reads the first file named by the argument, by KUBECONFIG and by the
    home directory, and asks the pod environment only when the home
    directory names no file.  Neither falls back: an error of the source
    chosen is the error of [New]. *)
Theorem New_configuration_source
  (ctx : GoContext) (kubeconfig namespace : string) :
  let deploymentSource :=
    if nonempty kubeconfig then BuildConfigFromFlags "" kubeconfig
    else InClusterConfig in
  let cronjobSource :=
    match chosenFile kubeconfig with
    | Some path => BuildConfigFromFlags "" path
    | None => InClusterConfig
    end in
  (forall e, deploymentSource = inl e ->
     DeploymentHandler.New ctx namespace kubeconfig = inl e) /\
  (forall h, DeploymentHandler.New ctx namespace kubeconfig = inr h ->
     exists cfg, deploymentSource = inr cfg /\
       DeploymentHandler.config h
         = mkRestConfig (Host cfg) "api" (Some ("apps", "v1"))
             (Some "scheme.Codecs")) /\
  (forall e, cronjobSource = inl e ->
     CronJobHandler.New ctx kubeconfig namespace = inl e) /\
  (forall r, CronJobHandler.New ctx kubeconfig namespace = inr r ->
     exists cfg h, cronjobSource = inr cfg /\ r = Done h /\
       CronJobHandler.config h
         = mkRestConfig (Host cfg) "api" (Some ("batch", "v1"))
             (Some "scheme.Codecs")) /\
  (RecommendedHomeFile <> "" -> chosenFile kubeconfig <> None).
Proof.
  intros deploymentSource cronjobSource. repeat split.
  - intros e He. unfold DeploymentHandler.New.
    fold deploymentSource. rewrite He. reflexivity.
  - intros h. unfold DeploymentHandler.New, andThen.
    fold deploymentSource.
    destruct deploymentSource as [e|cfg]; [discriminate|].
    destruct (RESTClientFor _) as [e|rc]; [discriminate|].
    destruct (NewForConfig _) as [e|cs]; [discriminate|].
    destruct (NewDynamicForConfig _) as [e|dc]; [discriminate|].
    destruct (NewDiscoveryClientForConfig _) as [e|dsc]; [discriminate|].
    intros [= <-]. exists cfg. split; reflexivity.
  - intros e He. unfold cronjobSource, chosenFile in He.
    unfold CronJobHandler.New.
    destruct (nonempty kubeconfig); [rewrite He; reflexivity|].
    destruct (nonempty (Getenv _)); [rewrite He; reflexivity|].
    destruct (nonempty RecommendedHomeFile); rewrite He; reflexivity.
  - intros r Hr.
    destruct (cronjob_New_inr ctx kubeconfig namespace r Hr)
      as (cfg & h & Hsrc & -> & Hcfg & _).
    exists cfg, h. auto.
  - intros Hhome. apply nonempty_true in Hhome. unfold chosenFile.
    destruct (nonempty kubeconfig); [discriminate|].
    destruct (nonempty (Getenv _)); [discriminate|].
    rewrite Hhome. discriminate.
Qed.

End Construction.

Lemma New_puts_default_for_the_empty_namespace_witness :
  exists h,
    DeploymentHandler.New (cg := Platform.cg) tt "" "/etc/kube.conf" = inr h /\
    DeploymentHandler.namespace h = "default".
Proof.
  eexists. split; [reflexivity|].
  apply (proj1 (New_puts_default_for_the_empty_namespace (cg := Platform.cg)
                  (io := Platform.io) (gs := Platform.gs)
                  tt "/etc/kube.conf" "")).
  reflexivity.
Defined.

Lemma New_configuration_source_witness :
  CronJobHandler.New (cg := Platform.cg) (io := Platform.io)
    (gs := Platform.gs) tt "" "prod"
  = inl (ErrExternal "stat: no such file or directory").
Proof.
  apply (New_configuration_source (cg := Platform.cg) (io := Platform.io)
           (gs := Platform.gs) tt "" "prod").
  reflexivity.
Defined.

(** ** Copies and setters of the handlers *)

Section Copies.
Context {cg : ClientGo} {io : InformerOptions} {gs : GoStrings}.

(** With the lock free, SetPropagationPolicy writes the policy field of the
    delete options and nothing else, and frees the lock again. *)
Lemma SetPropagationPolicy_unlocked (policy : string)
  (h : CronJobHandler.Handler) :
  CronJobHandler.locked h = false ->
  exists p,
    CronJobHandler.SetPropagationPolicy policy h
      = Done (CronJobHandler.setPropagationPolicy p h) /\
    (p = "Background" \/ p = "Foreground" \/ p = "Orphan") /\
    (ToLower policy = "background" -> p = "Background") /\
    (ToLower policy = "foreground" -> p = "Foreground") /\
    (ToLower policy = "orphan" -> p = "Orphan") /\
    (ToLower policy <> "foreground" -> ToLower policy <> "orphan" ->
     p = "Background").
Proof.
  intros Hl. unfold CronJobHandler.SetPropagationPolicy, CronJobHandler.Lock.
  rewrite Hl. cbn [next].
  change (ToLower metav1.DeletePropagationBackground) with "background".
  change (ToLower metav1.DeletePropagationForeground) with "foreground".
  change (ToLower metav1.DeletePropagationOrphan) with "orphan".
  destruct h as [c kc ns cf hc rc cs dc dsc rp sc tw fa o l].
  simpl in Hl. subst l.
  destruct (String.eqb (ToLower policy) "background") eqn:Hb;
    [|destruct (String.eqb (ToLower policy) "foreground") eqn:Hf;
      [|destruct (String.eqb (ToLower policy) "orphan") eqn:Ho]];
    rewrite ?String.eqb_eq, ?String.eqb_neq in *;
    eexists; (split; [reflexivity|]);
    repeat split; auto; intros; congruence.
Qed.

(** X17. SetPropagationPolicy always leaves a policy set, one of Background,
    Foreground and Orphan, and touches nothing else.  A policy written in
    ASCII is recognised whatever the case of its letters; any string that
    is neither "foreground" nor "orphan" in lower case gives the background
    policy. *)
Theorem SetPropagationPolicy_selects_one_of_three (policy : string)
  (h : CronJobHandler.Handler) :
  CronJobHandler.locked h = false ->
  exists p,
    CronJobHandler.SetPropagationPolicy policy h
      = Done (CronJobHandler.setPropagationPolicy p h) /\
    (p = "Background" \/ p = "Foreground" \/ p = "Orphan") /\
    (isASCII policy = true ->
     (asciiToLower policy = "foreground" -> p = "Foreground") /\
     (asciiToLower policy = "orphan" -> p = "Orphan") /\
     (asciiToLower policy <> "foreground" ->
      asciiToLower policy <> "orphan" -> p = "Background")).
Proof.
  intros Hl.
  destruct (SetPropagationPolicy_unlocked policy h Hl)
    as (p & Hrun & Hone & _ & Hf & Ho & Hb).
  exists p. split; [exact Hrun|]. split; [exact Hone|].
  intros Hascii. unfold ToLower in Hf, Ho, Hb. rewrite Hascii in Hf, Ho, Hb.
  auto.
Qed.

(** The copy cronjob's DeepCopy makes. *)
Lemma cronjob_DeepCopy (h : CronJobHandler.Handler) :
  let o := CronJobHandler.Options h in
  CronJobHandler.DeepCopy h =
  Done (CronJobHandler.mkHandler (CronJobHandler.ctx h)
          (CronJobHandler.kubeconfig h) (CronJobHandler.namespace h)
          (CronJobHandler.config h) (CronJobHandler.httpClient h)
          (CronJobHandler.restClient h) (CronJobHandler.clientset h)
          (CronJobHandler.dynamicClient h) (CronJobHandler.discoveryClient h)
          0%Z "" None (CronJobHandler.informerFactory h)
          (typed.mkOptions (typed.ListOptions o) (typed.GetOptions o)
             (typed.CreateOptions o) (typed.UpdateOptions o)
             (metav1.mkDelete None (Some "Background") [])
             (typed.PatchOptions o) (typed.ApplyOptions o))
          false).
Proof. reflexivity. Qed.

(** X18. WithNamespace gives a handler for the new namespace, with its lock
    free whatever the state of the original's, on the same clients and with
    the same options except the delete options: those start afresh, empty
    in deployment and with only the background policy in cronjob, so a
    grace period, a policy or a dry run set for deletes is not carried
    over.  In cronjob the three fields the informer factory is built from
    start afresh too, while the factory itself is shared. *)
Theorem WithNamespace_keeps_all_but_the_delete_options (ns : string)
  (d : DeploymentHandler.Handler) (c : CronJobHandler.Handler) :
  (exists d',
     DeploymentHandler.WithNamespace ns d = Done d' /\
     DeploymentHandler.namespace d' = ns /\
     DeploymentHandler.locked d' = false /\
     sameButDelete (DeploymentHandler.Options d')
       (DeploymentHandler.Options d) /\
     typed.DeleteOptions (DeploymentHandler.Options d')
       = metav1.mkDelete None None [] /\
     DeploymentHandler.clientset d' = DeploymentHandler.clientset d /\
     DeploymentHandler.config d' = DeploymentHandler.config d /\
     DeploymentHandler.informer d' = DeploymentHandler.informer d) /\
  (exists c',
     CronJobHandler.WithNamespace ns c = Done c' /\
     CronJobHandler.namespace c' = ns /\
     CronJobHandler.locked c' = false /\
     sameButDelete (CronJobHandler.Options c') (CronJobHandler.Options c) /\
     typed.DeleteOptions (CronJobHandler.Options c')
       = metav1.mkDelete None (Some "Background") [] /\
     CronJobHandler.clientset c' = CronJobHandler.clientset c /\
     CronJobHandler.config c' = CronJobHandler.config c /\
     CronJobHandler.informerFactory c' = CronJobHandler.informerFactory c /\
     CronJobHandler.resyncPeriod c' = 0%Z /\
     CronJobHandler.informerScope c' = "" /\
     CronJobHandler.tweakListOptions c' = None).
Proof.
  split.
  - eexists. split; [reflexivity|]. simpl. unfold sameButDelete. simpl.
    repeat split.
  - unfold CronJobHandler.WithNamespace. rewrite cronjob_DeepCopy.
    eexists. split; [reflexivity|]. simpl. unfold sameButDelete. simpl.
    repeat split.
Qed.

(** X19. A dry run for deletes lasts only while WithDryRun comes last: the
    handler of WithDryRun followed by WithNamespace has the dry run set for
    create, update, patch and apply and not for delete; in the other order
    all five have it.  So in deployment, so in cronjob. *)
Theorem delete_dry_run_does_not_survive_WithNamespace (ns : string)
  (d : DeploymentHandler.Handler) (c : CronJobHandler.Handler) :
  let all := ["All"] in
  (exists d1 d2,
     DeploymentHandler.WithNamespace ns (DeploymentHandler.WithDryRun d)
       = Done d1 /\
     dryRuns (DeploymentHandler.Options d1) = [all; all; []; all; all] /\
     DeploymentHandler.WithNamespace ns d = Done d2 /\
     dryRuns (DeploymentHandler.Options (DeploymentHandler.WithDryRun d2))
       = [all; all; all; all; all]) /\
  (exists c1 c2,
     next (CronJobHandler.WithDryRun c) (CronJobHandler.WithNamespace ns)
       = Done c1 /\
     dryRuns (CronJobHandler.Options c1) = [all; all; []; all; all] /\
     next (CronJobHandler.WithNamespace ns c) CronJobHandler.WithDryRun
       = Done c2 /\
     dryRuns (CronJobHandler.Options c2) = [all; all; all; all; all]).
Proof.
  intros all. split.
  - do 2 eexists. split; [cbv; reflexivity|]. split; [cbv; reflexivity|].
    split; cbv; reflexivity.
  - do 2 eexists. split; [cbv; reflexivity|]. split; [cbv; reflexivity|].
    split; cbv; reflexivity.
Qed.

(** X20. deployment's SetForceDelete, called with the lock free, returns with
    the lock free.  With [true] it sets a grace period of zero and keeps
    the policy and the dry run of the delete options; with [false] it
    empties the delete options altogether, a dry run set for deletes
    included.  The other options and the namespace stay. *)
Theorem deployment_SetForceDelete (force : bool)
  (h : DeploymentHandler.Handler) :
  DeploymentHandler.locked h = false ->
  exists h',
    DeploymentHandler.SetForceDelete force h = Done h' /\
    DeploymentHandler.locked h' = false /\
    DeploymentHandler.namespace h' = DeploymentHandler.namespace h /\
    sameButDelete (DeploymentHandler.Options h')
      (DeploymentHandler.Options h) /\
    typed.DeleteOptions (DeploymentHandler.Options h') =
      let old := typed.DeleteOptions (DeploymentHandler.Options h) in
      if force
      then metav1.mkDelete (Some 0%Z) (metav1.PropagationPolicy old)
             (metav1.DeleteDryRun old)
      else metav1.mkDelete None None [].
Proof.
  intros Hl. unfold DeploymentHandler.SetForceDelete, DeploymentHandler.Lock.
  rewrite Hl. cbn [next]. unfold sameButDelete.
  destruct force; eexists; (split; [reflexivity|]); simpl; repeat split.
Qed.

(** X21. cronjob's SetForceDelete never returns.  Called with the lock free it
    takes the lock, writes the grace period when [force] holds, and then
    waits for the lock it holds itself; called with the lock held it waits
    at once.  The lock stays held, so every later call of a setter on this
    handler waits for ever as well; a copy has a lock of its own and still
    works. *)
Theorem cronjob_SetForceDelete_never_returns (force : bool)
  (h : CronJobHandler.Handler) :
  exists h',
    CronJobHandler.SetForceDelete force h = Blocks h' /\
    CronJobHandler.locked h' = true /\
    (CronJobHandler.locked h = false -> force = true ->
     metav1.GracePeriodSeconds
       (typed.DeleteOptions (CronJobHandler.Options h')) = Some 0%Z) /\
    (forall force', CronJobHandler.SetForceDelete force' h' = Blocks h') /\
    (forall timeout, CronJobHandler.SetTimeout timeout h' = Blocks h') /\
    (forall limit, CronJobHandler.SetLimit limit h' = Blocks h') /\
    (forall policy,
       CronJobHandler.SetPropagationPolicy policy h' = Blocks h') /\
    (forall ns, CronJobHandler.resetNamespace ns h' = Blocks h') /\
    (forall ns, exists c,
       CronJobHandler.WithNamespace ns h' = Done c /\
       CronJobHandler.locked c = false).
Proof.
  assert (Hheld : forall h', CronJobHandler.locked h' = true ->
    (forall force', CronJobHandler.SetForceDelete force' h' = Blocks h') /\
    (forall timeout, CronJobHandler.SetTimeout timeout h' = Blocks h') /\
    (forall limit, CronJobHandler.SetLimit limit h' = Blocks h') /\
    (forall policy,
       CronJobHandler.SetPropagationPolicy policy h' = Blocks h') /\
    (forall ns, CronJobHandler.resetNamespace ns h' = Blocks h') /\
    (forall ns, exists c,
       CronJobHandler.WithNamespace ns h' = Done c /\
       CronJobHandler.locked c = false)).
  { intros h' Hl'.
    unfold CronJobHandler.SetForceDelete, CronJobHandler.SetTimeout,
      CronJobHandler.SetLimit, CronJobHandler.SetPropagationPolicy,
      CronJobHandler.resetNamespace, CronJobHandler.Lock.
    rewrite Hl'. cbn [next]. repeat split.
    intros ns. unfold CronJobHandler.WithNamespace.
    rewrite cronjob_DeepCopy. eexists. split; reflexivity. }
  destruct (CronJobHandler.locked h) eqn:Hl.
  - exists h. split.
    + unfold CronJobHandler.SetForceDelete, CronJobHandler.Lock.
      rewrite Hl. reflexivity.
    + split; [exact Hl|]. split; [discriminate|]. apply Hheld. exact Hl.
  - unfold CronJobHandler.SetForceDelete, CronJobHandler.Lock at 1.
    rewrite Hl. cbn [next].
    destruct force; eexists; (split; [reflexivity|]);
      (split; [reflexivity|]); (split; [intros; try reflexivity; congruence|]);
      apply Hheld; reflexivity.
Qed.

(** X22. After any calls of the informer setters of package job, made with the
    lock free, the lock is free again, each of the resync period, the scope
    and the list-options filter is the one last given (or as before when
    none was given), and the informer factory is the one built from these
    three for the handler's clientset; nothing else of the handler has
    changed. *)
Theorem job_informer_setters_rebuild_the_factory
  (ss : list InformerSetter) (s : InformerSetter) (h : JobInformer.Handler) :
  CronJobHandler.locked h = false ->
  exists h',
    callSetters (s :: ss) h = Done h' /\
    CronJobHandler.locked h' = false /\
    CronJobHandler.resyncPeriod h'
      = lastResync (s :: ss) (CronJobHandler.resyncPeriod h) /\
    CronJobHandler.informerScope h'
      = lastScope (s :: ss) (CronJobHandler.informerScope h) /\
    CronJobHandler.tweakListOptions h'
      = lastTweak (s :: ss) (CronJobHandler.tweakListOptions h) /\
    CronJobHandler.informerFactory h'
      = NewSharedInformerFactoryWithOptions (CronJobHandler.clientset h)
          (CronJobHandler.resyncPeriod h') (CronJobHandler.informerScope h')
          (CronJobHandler.tweakListOptions h') /\
    CronJobHandler.clientset h' = CronJobHandler.clientset h /\
    CronJobHandler.namespace h' = CronJobHandler.namespace h /\
    CronJobHandler.Options h' = CronJobHandler.Options h.
Proof.
  assert (Hscope : forall sc : string,
            (if nonempty sc then sc else metav1.NamespaceAll) = sc).
  { intros [|a sc]; reflexivity. }
  assert (Hone : forall (s0 : InformerSetter) (h0 : JobInformer.Handler),
    CronJobHandler.locked h0 = false ->
    exists h1,
      callSetter s0 h0 = Done h1 /\
      CronJobHandler.locked h1 = false /\
      CronJobHandler.resyncPeriod h1
        = lastResync [s0] (CronJobHandler.resyncPeriod h0) /\
      CronJobHandler.informerScope h1
        = lastScope [s0] (CronJobHandler.informerScope h0) /\
      CronJobHandler.tweakListOptions h1
        = lastTweak [s0] (CronJobHandler.tweakListOptions h0) /\
      CronJobHandler.informerFactory h1
        = NewSharedInformerFactoryWithOptions (CronJobHandler.clientset h0)
            (CronJobHandler.resyncPeriod h1) (CronJobHandler.informerScope h1)
            (CronJobHandler.tweakListOptions h1) /\
      CronJobHandler.clientset h1 = CronJobHandler.clientset h0 /\
      CronJobHandler.namespace h1 = CronJobHandler.namespace h0 /\
      CronJobHandler.Options h1 = CronJobHandler.Options h0).
  { intros s0 h0 Hl0.
    destruct s0; simpl;
      unfold JobInformer.SetInformerFactoryResyncPeriod,
        JobInformer.SetInformerFactoryNamespace,
        JobInformer.SetInformerFactoryTweakListOptions, CronJobHandler.Lock;
      rewrite Hl0; cbn [next];
      (eexists; split; [reflexivity|]); simpl; rewrite ?Hscope;
      repeat split. }
  revert s h. induction ss as [|s' ss IH]; intros s h Hl.
  - destruct (Hone s h Hl) as (h1 & Hrun & Hrest).
    exists h1. split; [|exact Hrest].
    cbn [callSetters]. rewrite Hrun. reflexivity.
  - destruct (Hone s h Hl)
      as (h1 & Hrun & Hl1 & Hr1 & Hs1 & Ht1 & Hf1 & Hc1 & Hn1 & Ho1).
    destruct (IH s' h1 Hl1)
      as (h2 & Hrun2 & Hl2 & Hr2 & Hs2 & Ht2 & Hf2 & Hc2 & Hn2 & Ho2).
    exists h2. split.
    + change (callSetters (s :: s' :: ss) h)
        with (next (callSetter s h) (callSetters (s' :: ss))).
      rewrite Hrun. exact Hrun2.
    + rewrite Hr2, Hs2, Ht2, Hr1, Hs1, Ht1 in *.
      rewrite Hc1 in Hf2, Hc2.
      repeat split; try congruence;
        destruct s; simpl; try reflexivity; try congruence.
Qed.

End Copies.

Lemma SetPropagationPolicy_selects_one_of_three_witness :
  CronJobHandler.SetPropagationPolicy (gs := Platform.gs) "ForeGround"
    Platform.cron
  = Done (CronJobHandler.setPropagationPolicy "Foreground" Platform.cron).
Proof.
  destruct (SetPropagationPolicy_selects_one_of_three (cg := Platform.cg)
              (io := Platform.io) (gs := Platform.gs) "ForeGround"
              Platform.cron eq_refl)
    as (p & Hrun & _ & Hascii).
  rewrite Hrun. f_equal. f_equal.
  exact (proj1 (Hascii eq_refl) eq_refl).
Defined.

Lemma deployment_SetForceDelete_witness :
  exists h',
    DeploymentHandler.SetForceDelete false Platform.deploy = Done h' /\
    typed.DeleteOptions (DeploymentHandler.Options h')
      = metav1.mkDelete None None [].
Proof.
  destruct (deployment_SetForceDelete (cg := Platform.cg) false
              Platform.deploy eq_refl)
    as (h' & Hrun & _ & _ & _ & Hdel).
  exists h'. split; [exact Hrun | exact Hdel].
Defined.

Lemma cronjob_SetForceDelete_never_returns_witness :
  exists h',
    CronJobHandler.SetForceDelete true Platform.cron = Blocks h' /\
    metav1.GracePeriodSeconds
      (typed.DeleteOptions (CronJobHandler.Options h')) = Some 0%Z.
Proof.
  destruct (cronjob_SetForceDelete_never_returns (cg := Platform.cg)
              (io := Platform.io) (gs := Platform.gs) true Platform.cron)
    as (h' & Hrun & _ & Hgrace & _).
  exists h'. split; [exact Hrun | exact (Hgrace eq_refl eq_refl)].
Defined.

Lemma job_informer_setters_rebuild_the_factory_witness :
  exists h',
    callSetters (cg := Platform.cg) (io := Platform.io)
      [SetNamespace "prod"; SetResyncPeriod 30%Z; SetNamespace ""]
      Platform.cron = Done h' /\
    CronJobHandler.informerFactory h' = ("clientset", 30%Z, "", false).
Proof.
  destruct (job_informer_setters_rebuild_the_factory (cg := Platform.cg)
              (io := Platform.io)
              [SetResyncPeriod 30%Z; SetNamespace ""] (SetNamespace "prod")
              Platform.cron eq_refl)
    as (h' & Hrun & _ & Hr & Hs & Ht & Hf & _).
  exists h'. split; [exact Hrun|].
  rewrite Hf, Hr, Hs, Ht. reflexivity.
Defined.

(** ** The dynamic delete, for every argument *)


(** ** The public namespace watchers *)

Section Watchers.
Variable U : Type.
Variable connect : nat -> ListOptions -> Result Watcher.
Variable ParseSelector : string -> Result string.


End Watchers.

